(** * RealESRGAN x4 on an Intel GPU: the conversion-and-inference pipeline

    A shallow embedding of [run_fp32.py].  The script is a chain of four
    functions ([download_model], [export_realesrgan_to_onnx],
    [convert_to_openvino] with [convert_step_by_step], and
    [run_gpu_inference]) that drive external libraries: requests, torch,
    OpenVINO, OpenCV, NumPy and the system clock.

    The embedding threads an explicit [World] (file system, trace of the
    external calls made so far, number of clock readings taken) through a
    state-and-exception monad.  What an external call answers is not
    decided by the script; it is given by an environment [Env], a record
    of oracles that may inspect the whole world at the time of the call.
    Every theorem quantifies over the environment, or fixes a concrete
    one.

    Diagnostic [print] calls are not modelled, except for the timing
    summary printed at the end of [run_gpu_inference].  The tqdm progress
    bar is not modelled. *)

From Stdlib Require Import ZArith QArith Lia.
From Stdlib Require Import Strings.Byte Strings.Ascii Strings.String.
From Stdlib Require Import Floats.SpecFloat.
From stdpp Require Import base option list strings gmap.

Local Open Scope string_scope.
Local Open Scope Z_scope.
Local Open Scope list_scope.

(** ** Python results: a value or a raised exception *)

Inductive exn := Exception (name : string).

Inductive result (A : Type) :=
| Ok (a : A)
| Raise (e : exn).
Arguments Ok {A} a.
Arguments Raise {A} e.

(** ** Arrays

    A NumPy array is a shape and its elements; the elements are read
    through the index vector.  Indices outside the shape are never read
    by the script. *)

Record ndarray (A : Type) := mk_ndarray {
  shape : list nat;
  item : list nat -> A
}.
Arguments mk_ndarray {A} shape item.
Arguments shape {A} _.
Arguments item {A} _ _.

(** [float32] values, as IEEE 754 binary32. *)
Definition f32 := spec_float.
Definition f32_prec : Z := 24.
Definition f32_emax : Z := 128.

(** ** OpenVINO shapes and models *)

Inductive dim :=
| Static (n : Z)
| Dynamic.

(** [Dimension(v)]: the value -1 stands for a dynamic dimension. *)
Definition Dimension (v : Z) : dim :=
  if v =? -1 then Dynamic else Static v.

Definition dim_is_dynamic (d : dim) : bool :=
  match d with
  | Static _ => false
  | Dynamic => true
  end.

(** A partial shape: of dynamic rank, or a list of dimensions. *)
Inductive PartialShape :=
| RankDynamic
| Dims (ds : list dim).

Record ov_model := mk_ov_model {
  graph_id : nat;
  input_shapes : list PartialShape
}.

(** ** The world *)

Inductive file :=
| FileBytes (content : list byte)
| FileOnnx
| FileIR (m : ov_model) (compress_to_fp16 : bool)
| FileWeights (m : ov_model) (compress_to_fp16 : bool)
| FileImage (img : ndarray Z).

(** Python objects found in a checkpoint: tensors and nested dicts. *)
#[local] Set Warnings "-register-all".
Inductive pyobj :=
| PTensor (id : nat)
| PDict (d : gmap string pyobj).

Inductive event :=
| EHttpGet (url : string)
| EOpenWrite (path : string)
| EFileWrite (path : string) (data : list byte)
| ETorchLoad (path : string)
| ELoadStateDict (params : pyobj)
| EOnnxExport (path : string)
| EMakedirs (path : string)
| EConvertModel (path : string)
| ESaveModel (m : ov_model) (path : string) (compress_to_fp16 : bool)
| EReadModel (path : string)
| EReshape (m : ov_model) (s : PartialShape)
| ECompileModel (m : ov_model) (device : string)
| EInfer (input : ndarray f32)
| EImread (path : string)
| EImwrite (path : string) (img : ndarray Z)
| EPrintTiming (record : list (string * Q))
| EPrintFPS (fps : option Q).

Record World := mk_World {
  fs : gmap string file;
  trace : list event;
  ticks : nat
}.

(** ** The state-and-exception monad *)

Definition M (A : Type) : Type := World -> result A * World.

Definition ret {A} (a : A) : M A := fun w => (Ok a, w).

Definition raise {A} (e : exn) : M A := fun w => (Raise e, w).

Definition bind {A B} (c : M A) (k : A -> M B) : M B :=
  fun w =>
    match c w with
    | (Ok a, w') => k a w'
    | (Raise e, w') => (Raise e, w')
    end.

(** [try: body except Exception as e: handler e] *)
Definition try_except {A} (body : M A) (handler : exn -> M A) : M A :=
  fun w =>
    match body w with
    | (Ok a, w') => (Ok a, w')
    | (Raise e, w') => handler e w'
    end.

Declare Scope py_scope.
Delimit Scope py_scope with py.
Notation "x <- c ;; k" := (bind c (fun x => k))
  (at level 100, c at next level, right associativity) : py_scope.
Notation "c ;;; k" := (bind c (fun _ => k))
  (at level 100, right associativity) : py_scope.
Local Open Scope py_scope.

Definition emit (e : event) : M unit :=
  fun w => (Ok tt, mk_World (fs w) (trace w ++ [e]) (ticks w)).

Definition write_file (path : string) (f : file) : M unit :=
  fun w => (Ok tt, mk_World (<[path := f]> (fs w)) (trace w) (ticks w)).

(** [os.path.exists] *)
Definition os_path_exists (path : string) : M bool :=
  fun w => (Ok (bool_decide (is_Some (fs w !! path))), w).

(** Lift an oracle answer into the monad. *)
Definition ask {A} (oracle : World -> result A) : M A :=
  fun w => (oracle w, w).

(** ** The environment *)

Inductive header_int :=
| HeaderAbsent
| HeaderInt (n : Z)
| HeaderMalformed.

(** A streamed HTTP response: [stream_fault] says that the body iterator
    raises after having yielded [body]. *)
Record response := mk_response {
  status_ok : bool;
  content_length : header_int;
  body : list (list byte);
  stream_fault : bool
}.

Record Env := mk_Env {
  (* the wall clock: the k-th reading of [time.time()], as the rational
     that the returned float denotes; a difference of two readings has the
     sign of their floating-point difference *)
  clock : nat -> Q;
  (* requests *)
  requests_get : World -> string -> result response;
  (* builtin open(path, 'wb') and file.write *)
  open_wb : World -> string -> result unit;
  file_write : World -> string -> list byte -> result unit;
  (* os.makedirs(path, exist_ok=True) *)
  os_makedirs : World -> string -> result unit;
  (* torch and basicsr *)
  RRDBNet : World -> result unit;
  torch_load : World -> string -> result (gmap string pyobj);
  load_state_dict : World -> pyobj -> result unit;
  (* the boolean says whether the file materialised *)
  torch_onnx_export : World -> string -> result bool;
  (* OpenVINO *)
  ov_Core : World -> result unit;
  ov_convert_model : World -> string -> result ov_model;
  ov_save_model : World -> ov_model -> string -> bool -> result bool;
  core_read_model : World -> string -> result ov_model;
  model_reshape : World -> ov_model -> PartialShape -> result unit;
  available_devices : World -> result (list string);
  get_any_name : World -> ov_model -> result string;
  compile_model : World -> ov_model -> string -> result unit;
  infer_request_infer : World -> ov_model -> ndarray f32 -> result unit;
  get_output_tensor : World -> ov_model -> result (ndarray f32);
  (* OpenCV; [putText_mask text org scale thickness row col] says whether
     the rendering of [text] covers the pixel at [row], [col] *)
  cv2_imread : World -> string -> option (ndarray Z);
  putText_mask : string -> nat * nat -> Z -> Z -> nat -> nat -> bool;
  cv2_imwrite : World -> string -> ndarray Z -> result bool
}.

(** [time.time()] *)
Definition time_time (E : Env) : M Q :=
  fun w => (Ok (clock E (ticks w)), mk_World (fs w) (trace w) (S (ticks w))).

(** ** Artifact provisioner: [download_model] *)

Definition MODEL_DIR : string := "../FP32/models".
Definition MODEL_NAME : string := "RealESRGAN_x4plus.pth".

(** [os.path.join] of two relative components, with the POSIX separator. *)
Definition os_path_join (a b : string) : string := a +:+ "/" +:+ b.

Definition MODEL_PATH : string := os_path_join MODEL_DIR MODEL_NAME.

Definition model_url : string :=
  "https://github.com/xinntao/Real-ESRGAN/releases/download/v0.1.0/RealESRGAN_x4plus.pth".

(** [response.raise_for_status()] *)
Definition raise_for_status (r : response) : M unit :=
  if status_ok r then ret tt else raise (Exception "HTTPError").

(** [int(response.headers.get('content-length', 0))] *)
Definition total_size_of (r : response) : M Z :=
  match content_length r with
  | HeaderAbsent => ret 0
  | HeaderInt n => ret n
  | HeaderMalformed => raise (Exception "ValueError")
  end.

(** [f.write(data)]: append to the file at [path]. *)
Definition f_write (E : Env) (path : string) (data : list byte) : M unit :=
  emit (EFileWrite path data) ;;;
  ask (fun w => file_write E w path data) ;;;
  fun w =>
    let old := match fs w !! path with
               | Some (FileBytes c) => c
               | _ => []
               end in
    write_file path (FileBytes (old ++ data)) w.

(** The loop [for data in response.iter_content(block_size): f.write(data)]. *)
Fixpoint write_chunks (E : Env) (path : string) (chunks : list (list byte)) : M unit :=
  match chunks with
  | [] => ret tt
  | data :: rest => f_write E path data ;;; write_chunks E path rest
  end.

Definition download_model (E : Env) : M bool :=
  present <- os_path_exists MODEL_PATH ;;
  if (present : bool) then ret true
  else
    try_except
      (emit (EHttpGet model_url) ;;;
       response <- ask (fun w => requests_get E w model_url) ;;
       raise_for_status response ;;;
       total_size <- total_size_of response ;;
       (* with open(MODEL_PATH, 'wb') as f: *)
       emit (EOpenWrite MODEL_PATH) ;;;
       ask (fun w => open_wb E w MODEL_PATH) ;;;
       write_file MODEL_PATH (FileBytes []) ;;;
       write_chunks E MODEL_PATH (body response) ;;;
       (if stream_fault response then raise (Exception "ChunkedEncodingError")
        else ret tt) ;;;
       ret true)
      (fun e => ret false).

(** ** Graph exporter: [export_realesrgan_to_onnx] *)

(** Lines 98-109: which object is handed to [model.load_state_dict]. *)
Definition state_dict_params (state_dict : gmap string pyobj) : pyobj :=
  match state_dict !! "params_ema" with
  | Some v => v
  | None =>
    match state_dict !! "params" with
    | Some v => v
    | None =>
      match state_dict !! "model" with
      | Some v => v
      | None => PDict state_dict
      end
    end
  end.

(** [RRDBNet] stands for the import of the architecture and the
    construction of the network with its six fixed hyperparameters.
    [model.eval()] and the dummy input [torch.randn(1, 3, 64, 64)] take
    part in nothing that is observed here; they are folded into
    [torch_onnx_export]. *)
Definition export_realesrgan_to_onnx (E : Env) : M (option string) :=
  try_except
    (ask (RRDBNet E) ;;;
     emit (ETorchLoad MODEL_PATH) ;;;
     state_dict <- ask (fun w => torch_load E w MODEL_PATH) ;;
     let params := state_dict_params state_dict in
     emit (ELoadStateDict params) ;;;
     ask (fun w => load_state_dict E w params) ;;;
     let onnx_path := "realesrgan_x4.onnx" in
     emit (EOnnxExport onnx_path) ;;;
     written <- ask (fun w => torch_onnx_export E w onnx_path) ;;
     (if (written : bool) then write_file onnx_path FileOnnx else ret tt) ;;;
     present <- os_path_exists onnx_path ;;
     if (present : bool) then ret (Some onnx_path) else ret None)
    (fun e => ret None).

(** ** Hardware compiler: [convert_to_openvino], [convert_step_by_step] *)

(** [os.path.basename]: what follows the last separator. *)
Fixpoint basename_from (s acc : string) : string :=
  match s with
  | EmptyString => acc
  | String c s' =>
    if Ascii.eqb c "/"%char then basename_from s' ""
    else basename_from s' (acc +:+ String c "")
  end.

Definition os_path_basename (s : string) : string := basename_from s "".

(** [s.replace(old, new)] for a non-empty [old]; [skip] counts the
    characters of a matched occurrence still to be dropped. *)
Fixpoint replace_from (old new : string) (skip : nat) (s : string) : string :=
  match s with
  | EmptyString => EmptyString
  | String c s' =>
    match skip with
    | S k => replace_from old new k s'
    | O =>
      if String.prefix old s
      then new +:+ replace_from old new (String.length old - 1) s'
      else String c (replace_from old new 0 s')
    end
  end.

Definition str_replace (s old new : string) : string := replace_from old new 0 s.

(** The weights file that [ov.save_model] puts beside the topology file:
    the path of the topology file with its last three characters, "xml",
    replaced by "bin". *)
Definition bin_path_of (xml_path : string) : string :=
  substring 0 (String.length xml_path - 3) xml_path +:+ "bin".

(** [ov.save_model(model, path, compress_to_fp16=c)]: the topology goes
    to [path] and the weights to the ".bin" file beside it. *)
Definition save_model (E : Env) (m : ov_model) (path : string) (c : bool) : M unit :=
  emit (ESaveModel m path c) ;;;
  written <- ask (fun w => ov_save_model E w m path c) ;;
  if (written : bool)
  then write_file path (FileIR m c) ;;;
       write_file (bin_path_of path) (FileWeights m c)
  else ret tt.

(** [model.input(0).get_partial_shape()] *)
Definition input_partial_shape (m : ov_model) : M PartialShape :=
  match input_shapes m !! 0%nat with
  | Some s => ret s
  | None => raise (Exception "RuntimeError")
  end.

(** [partial_shape[i]] *)
Definition shape_getitem (s : PartialShape) (i : nat) : M dim :=
  match s with
  | RankDynamic => raise (Exception "RuntimeError")
  | Dims ds =>
    match ds !! i with
    | Some d => ret d
    | None => raise (Exception "IndexError")
    end
  end.

(** [partial_shape[i] = v] *)
Definition shape_setitem (s : PartialShape) (i : nat) (v : Z) : M PartialShape :=
  match s with
  | RankDynamic => raise (Exception "RuntimeError")
  | Dims ds =>
    if bool_decide (i < length ds)%nat then ret (Dims (<[i := Dimension v]> ds))
    else raise (Exception "IndexError")
  end.

(** [model.reshape({input: partial_shape})]: the model is updated in
    place; the embedding returns the updated model. *)
Definition reshape_model (E : Env) (m : ov_model) (s : PartialShape) : M ov_model :=
  emit (EReshape m s) ;;;
  ask (fun w => model_reshape E w m s) ;;;
  ret (mk_ov_model (graph_id m) (<[0%nat := s]> (input_shapes m))).

Definition convert_step_by_step (E : Env) (onnx_path xml_path : string)
  : M (option string) :=
  try_except
    (ask (ov_Core E) ;;;
     emit (EReadModel onnx_path) ;;;
     model <- ask (fun w => core_read_model E w onnx_path) ;;
     partial_shape <- input_partial_shape model ;;
     d2 <- shape_getitem partial_shape 2 ;;
     already <- (if dim_is_dynamic d2
                 then d3 <- shape_getitem partial_shape 3 ;; ret (dim_is_dynamic d3)
                 else ret false) ;;
     model <- (if (already : bool) then ret model
               else
                 partial_shape <- shape_setitem partial_shape 2 (-1) ;;
                 partial_shape <- shape_setitem partial_shape 3 (-1) ;;
                 reshape_model E model partial_shape) ;;
     save_model E model xml_path false ;;;
     present <- os_path_exists xml_path ;;
     if (present : bool) then ret (Some xml_path) else ret None)
    (fun e => ret None).

(** Lines 152-155. *)
Definition ov_dir : string := "ov_model".

Definition xml_path_of (onnx_path : string) : string :=
  let model_name := str_replace (os_path_basename onnx_path) ".onnx" "" in
  os_path_join ov_dir (model_name +:+ ".xml").

(** Lines 161-169: the body of the [try] block. *)
Definition convert_direct (E : Env) (onnx_path xml_path : string)
  : M (option string) :=
  emit (EConvertModel onnx_path) ;;;
  ov_model <- ask (fun w => ov_convert_model E w onnx_path) ;;
  save_model E ov_model xml_path true ;;;
  present <- os_path_exists xml_path ;;
  if (present : bool) then ret (Some xml_path) else ret None.

Definition convert_to_openvino (E : Env) (onnx_path : string) : M (option string) :=
  emit (EMakedirs ov_dir) ;;;
  ask (fun w => os_makedirs E w ov_dir) ;;;
  let xml_path := xml_path_of onnx_path in
  try_except
    (convert_direct E onnx_path xml_path)
    (fun e => convert_step_by_step E onnx_path xml_path).

(** ** Inference executor: [run_gpu_inference] *)

(** *** NumPy and OpenCV operations used by the executor *)

(** [np.zeros(shape, dtype=np.uint8)] *)
Definition np_zeros (sh : list nat) : ndarray Z := mk_ndarray sh (fun _ => 0).

(** [cv2.putText(img, text, org, FONT_HERSHEY_SIMPLEX, scale, color, thickness)]
    with the default line type: a covered pixel takes [color], the others
    keep their value. *)
Definition cv2_putText (E : Env) (img : ndarray Z) (text : string) (org : nat * nat)
    (scale : Z) (color : list Z) (thickness : Z) : ndarray Z :=
  mk_ndarray (shape img)
    (fun idx =>
       match idx with
       | [r; c; ch] =>
         if putText_mask E text org scale thickness r c
         then nth ch color 0
         else item img idx
       | _ => item img idx
       end).

(** One axis of bilinear resampling from [src] to [dst] samples: the
    sample [d] sits at source coordinate [(d + 1/2) * src / dst - 1/2].
    Returns the lower source index and the weight of the next one as a
    numerator over [2 * dst]; coordinates outside the source are clamped. *)
Definition linear_coeff (src dst d : nat) : nat * Z :=
  let den := 2 * Z.of_nat dst in
  let num := (2 * Z.of_nat d + 1) * Z.of_nat src - Z.of_nat dst in
  let s := num / den in
  let f := num mod den in
  if s <? 0 then (0%nat, 0)
  else if Z.of_nat src - 1 <=? s then ((src - 1)%nat, 0)
  else (Z.to_nat s, f).

(** [cv2.resize(img, (new_w, new_h))] with the default interpolation
    (bilinear).  An empty target size, or an empty source, is refused with
    an exception.  The interpolation weights are kept as exact fractions
    and the result is rounded to the nearest integer; OpenCV evaluates the
    same weighted sum with 11-bit fixed-point weights, so that its value
    can differ from this one by a unit. *)
Definition cv2_resize (img : ndarray Z) (dsize : nat * nat) : M (ndarray Z) :=
  let '(new_w, new_h) := dsize in
  match shape img with
  | h :: w :: chans =>
    if bool_decide (new_w = 0 ∨ new_h = 0 ∨ h = 0 ∨ w = 0)%nat
    then raise (Exception "cv2.error")
    else
      ret (mk_ndarray (new_h :: new_w :: chans)
        (fun idx =>
           match idx with
           | i :: j :: rest =>
             let '(y0, fy) := linear_coeff h new_h i in
             let '(x0, fx) := linear_coeff w new_w j in
             let y1 := Nat.min (S y0) (h - 1) in
             let x1 := Nat.min (S x0) (w - 1) in
             let dy := 2 * Z.of_nat new_h in
             let dx := 2 * Z.of_nat new_w in
             let p a b := item img (a :: b :: rest) in
             let num := (dy - fy) * (dx - fx) * p y0 x0
                        + (dy - fy) * fx * p y0 x1
                        + fy * (dx - fx) * p y1 x0
                        + fy * fx * p y1 x1 in
             (2 * num + dy * dx) / (2 * dy * dx)
           | _ => 0
           end))
  | _ => raise (Exception "cv2.error")
  end.

(** [np.transpose(a, axes)]: axis [i] of the result is axis [axes[i]] of
    [a]. *)
Definition np_transpose {A} (a : ndarray A) (axes : list nat) : M (ndarray A) :=
  let n := length (shape a) in
  if bool_decide (length axes = n ∧ Forall (fun k => k ∈ axes) (seq 0 n))
  then
    ret (mk_ndarray
           (map (fun ax => nth ax (shape a) 0%nat) axes)
           (fun idx =>
              item a
                (map (fun k =>
                        match list_find (fun ax => ax = k) axes with
                        | Some (i, _) => nth i idx 0%nat
                        | None => 0%nat
                        end)
                     (seq 0 n))))
  else raise (Exception "ValueError").

(** [np.expand_dims(a, axis=0)] *)
Definition np_expand_dims0 {A} (a : ndarray A) : ndarray A :=
  mk_ndarray (1%nat :: shape a) (fun idx => item a (tail idx)).

(** [np.squeeze(a, axis=0)] *)
Definition np_squeeze0 {A} (a : ndarray A) : M (ndarray A) :=
  match shape a with
  | 1%nat :: sh => ret (mk_ndarray sh (fun idx => item a (0%nat :: idx)))
  | _ => raise (Exception "ValueError")
  end.

Definition array_map {A B} (f : A -> B) (a : ndarray A) : ndarray B :=
  mk_ndarray (shape a) (fun idx => f (item a idx)).

(** Conversion of an integer to [float32]. *)
Definition f32_of_Z (z : Z) : f32 := binary_normalize f32_prec f32_emax z 0 false.

Definition f32_mul : f32 -> f32 -> f32 := SFmul f32_prec f32_emax.
Definition f32_div : f32 -> f32 -> f32 := SFdiv f32_prec f32_emax.

(** [np.maximum] and [np.minimum]: a NaN operand gives NaN. *)
Definition np_maximum (x y : f32) : f32 :=
  match SFcompare x y with
  | None => S754_nan
  | Some Lt => y
  | Some _ => x
  end.

Definition np_minimum (x y : f32) : f32 :=
  match SFcompare x y with
  | None => S754_nan
  | Some Gt => y
  | Some _ => x
  end.

(** [np.clip(x, lo, hi)] is [np.minimum(np.maximum(x, lo), hi)]. *)
Definition np_clip (x lo hi : f32) : f32 := np_minimum (np_maximum x lo) hi.

(** [x.astype(np.uint8)] on a [float32]: the value is truncated towards
    zero and kept modulo 256.  NaN and the infinities have no defined
    conversion; they are given 0. *)
Definition astype_uint8 (x : f32) : Z :=
  match x with
  | S754_finite s m e => cond_Zopp s (Z.shiftl (Z.pos m) e) mod 256
  | _ => 0
  end.

(** *** The stages of the executor *)

(** Lines 241-248: image ingest. *)
Definition default_image (E : Env) : ndarray Z :=
  cv2_putText E (np_zeros [256; 256; 3]%nat) "GPU Test" (50, 128)%nat 1 [0; 255; 0] 2.

Definition load_image (E : Env) (input_image_path : string) : M (ndarray Z) :=
  emit (EImread input_image_path) ;;;
  img <- (fun w => (Ok (cv2_imread E w input_image_path), w)) ;;
  match img with
  | Some img => ret img
  | None => ret (default_image E)
  end.

(** Lines 253-259: shape normalisation. *)
Definition resize_to_multiple_of_64 (img : ndarray Z) : M (ndarray Z) :=
  match shape img with
  | h :: w :: _ =>
    let new_h := ((h / 64) * 64)%nat in
    let new_w := ((w / 64) * 64)%nat in
    if bool_decide (new_h ≠ h ∨ new_w ≠ w)
    then cv2_resize img (new_w, new_h)
    else ret img
  | _ => raise (Exception "ValueError")
  end.

(** Lines 264-266: preprocessing. *)
Definition preprocess (img : ndarray Z) : M (ndarray f32) :=
  let input_data := array_map (fun v => f32_div (f32_of_Z v) (f32_of_Z 255)) img in
  input_data <- np_transpose input_data [2; 0; 1]%nat ;;
  ret (np_expand_dims0 input_data).

(** [partial_shape.is_dynamic] *)
Definition shape_is_dynamic (s : PartialShape) : bool :=
  match s with
  | RankDynamic => true
  | Dims ds => existsb dim_is_dynamic ds
  end.

(** Lines 275-280: shape negotiation. *)
Definition negotiate_shape (E : Env) (model : ov_model) (img : ndarray Z)
  : M ov_model :=
  partial_shape <- input_partial_shape model ;;
  if shape_is_dynamic partial_shape then
    partial_shape <- shape_setitem partial_shape 2 (Z.of_nat (nth 0 (shape img) 0%nat)) ;;
    partial_shape <- shape_setitem partial_shape 3 (Z.of_nat (nth 1 (shape img) 0%nat)) ;;
    reshape_model E model partial_shape
  else ret model.

(** Lines 314-316: postprocessing. *)
Definition postprocess (result : ndarray f32) : M (ndarray Z) :=
  output_data <- np_squeeze0 result ;;
  output_data <- np_transpose output_data [1; 2; 0]%nat ;;
  ret (array_map
         (fun v => astype_uint8 (np_clip (f32_mul v (f32_of_Z 255)) (f32_of_Z 0) (f32_of_Z 255)))
         output_data).

(** Lines 329-342: the timing summary. *)
Definition timing_record
    (image_load_time resize_time preprocess_time reshape_time config_time
     compile_time inference_time get_results_time postprocess_time save_time
     total_time : Q) : list (string * Q) :=
  [ ("图像加载", image_load_time);
    ("图像调整", resize_time);
    ("预处理", preprocess_time);
    ("模型调整", reshape_time);
    ("配置设置", config_time);
    ("模型编译", compile_time);
    ("推理执行", inference_time);
    ("结果获取", get_results_time);
    ("后处理", postprocess_time);
    ("结果保存", save_time);
    ("总处理时间", total_time) ].

(** Lines 252-344: everything after image ingest.  The configuration
    dictionary of lines 285-289 is a constant and is not passed on. *)
Definition run_from_resize (E : Env) (model : ov_model) (output_image_path : string)
    (total_start image_load_time : Q) (img : ndarray Z) : M bool :=
  let device := "GPU" in
  resize_start <- time_time E ;;
  img <- resize_to_multiple_of_64 img ;;
  resize_end <- time_time E ;;
  let resize_time := (resize_end - resize_start)%Q in
  preprocess_start <- time_time E ;;
  input_data <- preprocess img ;;
  preprocess_end <- time_time E ;;
  let preprocess_time := (preprocess_end - preprocess_start)%Q in
  _ <- input_partial_shape model ;;
  input_layer_name <- ask (fun w => get_any_name E w model) ;;
  reshape_start <- time_time E ;;
  model <- negotiate_shape E model img ;;
  reshape_end <- time_time E ;;
  let reshape_time := (reshape_end - reshape_start)%Q in
  config_start <- time_time E ;;
  config_end <- time_time E ;;
  let config_time := (config_end - config_start)%Q in
  compile_start <- time_time E ;;
  emit (ECompileModel model device) ;;;
  ask (fun w => compile_model E w model device) ;;;
  compile_end <- time_time E ;;
  let compile_time := (compile_end - compile_start)%Q in
  inference_start <- time_time E ;;
  emit (EInfer input_data) ;;;
  ask (fun w => infer_request_infer E w model input_data) ;;;
  inference_end <- time_time E ;;
  let inference_time := (inference_end - inference_start)%Q in
  get_results_start <- time_time E ;;
  result <- ask (fun w => get_output_tensor E w model) ;;
  get_results_end <- time_time E ;;
  let get_results_time := (get_results_end - get_results_start)%Q in
  postprocess_start <- time_time E ;;
  output_data <- postprocess result ;;
  postprocess_end <- time_time E ;;
  let postprocess_time := (postprocess_end - postprocess_start)%Q in
  save_start <- time_time E ;;
  emit (EImwrite output_image_path output_data) ;;;
  written <- ask (fun w => cv2_imwrite E w output_image_path output_data) ;;
  (if (written : bool) then write_file output_image_path (FileImage output_data)
   else ret tt) ;;;
  save_end <- time_time E ;;
  let save_time := (save_end - save_start)%Q in
  total_end <- time_time E ;;
  let total_time := (total_end - total_start)%Q in
  emit (EPrintTiming
          (timing_record image_load_time resize_time preprocess_time reshape_time
             config_time compile_time inference_time get_results_time
             postprocess_time save_time total_time)) ;;;
  emit (EPrintFPS (if Qle_bool total_time 0 then None else Some (1 / total_time)%Q)) ;;;
  ret true.

Definition run_gpu_inference (E : Env)
    (ov_model_path input_image_path output_image_path : string) : M bool :=
  try_except
    (ask (ov_Core E) ;;;
     total_start <- time_time E ;;
     devices <- ask (available_devices E) ;;
     if bool_decide ("GPU" ∈ (devices : list string)) then
       model_read_start <- time_time E ;;
       emit (EReadModel ov_model_path) ;;;
       model <- ask (fun w => core_read_model E w ov_model_path) ;;
       model_read_end <- time_time E ;;
       image_load_start <- time_time E ;;
       img <- load_image E input_image_path ;;
       image_load_end <- time_time E ;;
       let image_load_time := (image_load_end - image_load_start)%Q in
       run_from_resize E model output_image_path total_start image_load_time img
     else ret false)
    (fun e => ret false).

(** * Vocabulary of the properties *)

(** The world after one more external call has been recorded. *)
Definition after (e : event) (w : World) : World :=
  mk_World (fs w) (trace w ++ [e]) (ticks w).

(** Number of HTTP requests recorded in a trace. *)
Fixpoint transfers (t : list event) : nat :=
  match t with
  | [] => 0
  | EHttpGet _ :: t' => S (transfers t')
  | _ :: t' => transfers t'
  end.

(** The call of [download_model] got as far as opening the destination
    file (lines 49-55): the request was answered by [resp], the status
    check and the content-length conversion passed, and [open]
    succeeded. *)
Definition opened_for_writing (E : Env) (w : World) (resp : response) : Prop :=
  fs w !! MODEL_PATH = None
  ∧ requests_get E (after (EHttpGet model_url) w) model_url = Ok resp
  ∧ status_ok resp = true
  ∧ content_length resp ≠ HeaderMalformed
  ∧ open_wb E (after (EOpenWrite MODEL_PATH) (after (EHttpGet model_url) w)) MODEL_PATH
    = Ok tt.

(** The world after one more reading of the clock. *)
Definition tick (w : World) : World :=
  mk_World (fs w) (trace w) (S (ticks w)).

(** The parameter sets handed to [load_state_dict], in order. *)
Fixpoint bound_params (t : list event) : list pyobj :=
  match t with
  | [] => []
  | ELoadStateDict p :: t' => p :: bound_params t'
  | _ :: t' => bound_params t'
  end.






(** The integer part of a [float32], towards zero. *)
Definition f32_trunc (x : f32) : Z :=
  match x with
  | S754_finite s m e => cond_Zopp s (Z.shiftl (Z.pos m) e)
  | _ => 0
  end.


(** The timing summaries printed in a trace, in order. *)
Fixpoint printed_timings (t : list event) : list (list (string * Q)) :=
  match t with
  | [] => []
  | EPrintTiming r :: t' => r :: printed_timings t'
  | _ :: t' => printed_timings t'
  end.

(** From [w] to [w'] the clock was read [n] times and no timing summary
    was printed. *)
Definition quiet (n : nat) (w w' : World) : Prop :=
  ticks w' = (n + ticks w)%nat
  ∧ ∃ evs, trace w' = trace w ++ evs ∧ printed_timings evs = [].

(** The labels of the timing summary, lines 330-341: image load, resize,
    preprocess, shape reconciliation, config, compile, inference, result
    extraction, postprocess, save, total. *)
Definition stage_labels : list string :=
  [ "图像加载"; "图像调整"; "预处理"; "模型调整"; "配置设置"; "模型编译";
    "推理执行"; "结果获取"; "后处理"; "结果保存"; "总处理时间" ].

(** The wall clock never steps backwards. *)
Definition clock_monotone (E : Env) : Prop :=
  ∀ i j : nat, (i ≤ j)%nat → Qle (clock E i) (clock E j).

(** * Concrete environments *)

(** An empty file system, no call made yet. *)
Definition w_init : World := mk_World ∅ [] 0.

(** A model whose input has static batch and channels and dynamic
    height and width, as the exporter declares them. *)
Definition sample_model : ov_model :=
  mk_ov_model 0 [Dims [Static 1; Static 3; Dynamic; Dynamic]].

(** An output tensor of shape (1, 3, 1024, 1024) filled with 1/2. *)
Definition sample_output : ndarray f32 :=
  mk_ndarray [1; 3; 1024; 1024]%nat (fun _ => f32_div (f32_of_Z 1) (f32_of_Z 2)).

(** An output tensor of shape (1, 3, 2, 2) whose channels hold 2, -3 and
    1/2: above the range, below it, and inside. *)
Definition overshoot_output : ndarray f32 :=
  mk_ndarray [1; 3; 2; 2]%nat
    (fun idx => match idx with
                | [_; 0; _; _]%nat => f32_of_Z 2
                | [_; 1; _; _]%nat => f32_of_Z (-3)
                | _ => f32_div (f32_of_Z 1) (f32_of_Z 2)
                end).

(** A 127 x 64 image with three channels whose pixels hold their row
    number. *)
Definition gradient_image : ndarray Z :=
  mk_ndarray [127; 64; 3]%nat
    (fun idx => match idx with
                | r :: _ => Z.of_nat r
                | [] => 0
                end).

(** A 300 x 260 image with three channels, uniformly grey. *)
Definition grey_image : ndarray Z :=
  mk_ndarray [300; 260; 3]%nat (fun _ => 128).

(** A checkpoint holding both the EMA and the plain parameters. *)
Definition sample_checkpoint : gmap string pyobj :=
  {[ "params_ema" := PDict {[ "conv_first.weight" := PTensor 1 ]};
     "params" := PDict {[ "conv_first.weight" := PTensor 2 ]} ]}.

(** An environment in which every call succeeds, up to the parameters:
    the clock, the HTTP response, the enumerated devices, the decoded
    input image, the answer of [ov.convert_model], whether
    [ov.save_model] materialises its file, and the model that
    [core.read_model] returns. *)
Definition sample_env (clk : nat -> Q) (resp : response) (devices : list string)
    (img : option (ndarray Z)) (converted : result ov_model) (saved : bool)
    (graph : ov_model) : Env :=
  {| clock := clk;
     requests_get := fun _ _ => Ok resp;
     open_wb := fun _ _ => Ok tt;
     file_write := fun _ _ _ => Ok tt;
     os_makedirs := fun _ _ => Ok tt;
     RRDBNet := fun _ => Ok tt;
     torch_load := fun _ _ => Ok sample_checkpoint;
     load_state_dict := fun _ _ => Ok tt;
     torch_onnx_export := fun _ _ => Ok true;
     ov_Core := fun _ => Ok tt;
     ov_convert_model := fun _ _ => converted;
     ov_save_model := fun _ _ _ _ => Ok saved;
     core_read_model := fun _ _ => Ok graph;
     model_reshape := fun _ _ _ => Ok tt;
     available_devices := fun _ => Ok devices;
     get_any_name := fun _ _ => Ok "input";
     compile_model := fun _ _ _ => Ok tt;
     infer_request_infer := fun _ _ _ => Ok tt;
     get_output_tensor := fun _ _ => Ok sample_output;
     cv2_imread := fun _ _ => img;
     putText_mask := fun _ org _ _ r c =>
       bool_decide (org.2 - 20 ≤ r ≤ org.2 ∧ org.1 ≤ c ≤ org.1 + 140)%nat;
     cv2_imwrite := fun _ _ _ => Ok true |}.

Definition steady_clock (k : nat) : Q := inject_Z (Z.of_nat k).

Definition response_ok : response :=
  {| status_ok := true; content_length := HeaderInt 3;
     body := [[x01; x02]; [x03]]; stream_fault := false |}.

(** The server answers 404. *)
Definition response_404 : response :=
  {| status_ok := false; content_length := HeaderAbsent;
     body := []; stream_fault := false |}.

(** The connection drops after the first chunk. *)
Definition response_dropped : response :=
  {| status_ok := true; content_length := HeaderInt 3;
     body := [[x01; x02]]; stream_fault := true |}.

(** Everything succeeds; the input is a readable 300 x 260 image. *)
Definition E_ok : Env :=
  sample_env steady_clock response_ok ["CPU"; "GPU"] (Some grey_image)
    (Ok sample_model) true sample_model.

(** The input image cannot be read. *)
Definition E_unreadable : Env :=
  sample_env steady_clock response_ok ["CPU"; "GPU"] None (Ok sample_model) true
    sample_model.

Definition E_404 : Env :=
  sample_env steady_clock response_404 ["CPU"; "GPU"] None (Ok sample_model) true
    sample_model.

Definition E_dropped : Env :=
  sample_env steady_clock response_dropped ["CPU"; "GPU"] None (Ok sample_model) true
    sample_model.



(** [ov.save_model] returns without having written its file. *)
Definition E_not_saved : Env :=
  sample_env steady_clock response_ok ["CPU"; "GPU"] None (Ok sample_model) false
    sample_model.

(** No GPU among the devices. *)
Definition E_cpu_only : Env :=
  sample_env steady_clock response_ok ["CPU"] None (Ok sample_model) true
    sample_model.

(** A wall clock that is set back between any two readings. *)
Definition backwards_clock (k : nat) : Q := inject_Z (- Z.of_nat k).

Definition E_backwards : Env :=
  sample_env backwards_clock response_ok ["CPU"; "GPU"] (Some grey_image)
    (Ok sample_model) true sample_model.

(** * Further vocabulary *)

(** Does the character occur in the string? *)
Fixpoint has_char (c : ascii) (s : string) : bool :=
  match s with
  | EmptyString => false
  | String c' s' => if Ascii.eqb c' c then true else has_char c s'
  end.

(** A [float32] lies between 0 and 1. *)
Definition in_unit_interval (x : f32) : Prop :=
  SFleb (f32_of_Z 0) x = true ∧ SFleb x (f32_of_Z 1) = true.

(** What lines 264-266 and 314-316 do to one pixel value. *)
Definition normalise (v : Z) : f32 := f32_div (f32_of_Z v) (f32_of_Z 255).

Definition quantise (x : f32) : Z :=
  astype_uint8 (np_clip (f32_mul x (f32_of_Z 255)) (f32_of_Z 0) (f32_of_Z 255)).

(** A 40 x 200 image with three channels: too low for one 64-row tile. *)
Definition low_image : ndarray Z :=
  mk_ndarray [40; 200; 3]%nat (fun _ => 128).

Definition E_low_image : Env :=
  sample_env steady_clock response_ok ["CPU"; "GPU"] (Some low_image)
    (Ok sample_model) true sample_model.

(** ** Footprints *)

(** From [w] to [w'], files outside [S] have kept their content, no file
    has disappeared, and the trace has grown by events that satisfy [P]. *)
Definition changes (S : string -> Prop) (P : event -> Prop) (w w' : World) : Prop :=
  (∀ p, ¬ S p → fs w' !! p = fs w !! p)
  ∧ (∀ p, is_Some (fs w !! p) → is_Some (fs w' !! p))
  ∧ ∃ evs, trace w' = trace w ++ evs ∧ Forall P evs.

(** Every run of [c] stays within the footprint [S], [P]. *)
Definition only {A} (S : string -> Prop) (P : event -> Prop) (c : M A) : Prop :=
  ∀ w r w', c w = (r, w') → changes S P w w'.

(** No run of [c] ends with an exception. *)
Definition never_raises {A} (c : M A) : Prop :=
  ∀ w, ∃ a w', c w = (Ok a, w').

(** The external calls of each stage. *)
Definition download_event (e : event) : Prop :=
  e = EHttpGet model_url ∨ e = EOpenWrite MODEL_PATH
  ∨ ∃ data, e = EFileWrite MODEL_PATH data.

Definition onnx_file : string := "realesrgan_x4.onnx".

Definition export_event (e : event) : Prop :=
  e = ETorchLoad MODEL_PATH ∨ (∃ params, e = ELoadStateDict params)
  ∨ e = EOnnxExport onnx_file.

Definition convert_event (onnx_path : string) (e : event) : Prop :=
  e = EMakedirs ov_dir ∨ e = EConvertModel onnx_path ∨ e = EReadModel onnx_path
  ∨ (∃ m s, e = EReshape m s)
  ∨ ∃ m c, e = ESaveModel m (xml_path_of onnx_path) c.

(** The two files of the IR that the compiler derives from the graph
    path: the topology and the weights beside it. *)
Definition ir_files (onnx_path : string) (p : string) : Prop :=
  p = xml_path_of onnx_path ∨ p = bin_path_of (xml_path_of onnx_path).

Definition inference_event (ov_model_path input_image_path output_image_path : string)
    (e : event) : Prop :=
  e = EReadModel ov_model_path ∨ e = EImread input_image_path
  ∨ (∃ m s, e = EReshape m s)
  ∨ (∃ m, e = ECompileModel m "GPU")
  ∨ (∃ t, e = EInfer t)
  ∨ (∃ img, e = EImwrite output_image_path img)
  ∨ (∃ record, e = EPrintTiming record)
  ∨ ∃ fps, e = EPrintFPS fps.

(** The request gets no usable answer: it raises, or the status is an
    error, or the content length cannot be converted. *)
Definition request_fails (E : Env) (w : World) : Prop :=
  match requests_get E (after (EHttpGet model_url) w) model_url with
  | Raise _ => True
  | Ok resp => status_ok resp = false ∨ content_length resp = HeaderMalformed
  end.

(** [cv2.imwrite] reports failure for every file. *)
Definition imwrite_fails (E : Env) : Prop :=
  ∀ w path img, cv2_imwrite E w path img = Ok false.

Definition E_imwrite_fails : Env :=
  {| clock := steady_clock;
     requests_get := requests_get E_ok;
     open_wb := open_wb E_ok;
     file_write := file_write E_ok;
     os_makedirs := os_makedirs E_ok;
     RRDBNet := RRDBNet E_ok;
     torch_load := torch_load E_ok;
     load_state_dict := load_state_dict E_ok;
     torch_onnx_export := torch_onnx_export E_ok;
     ov_Core := ov_Core E_ok;
     ov_convert_model := ov_convert_model E_ok;
     ov_save_model := ov_save_model E_ok;
     core_read_model := core_read_model E_ok;
     model_reshape := model_reshape E_ok;
     available_devices := available_devices E_ok;
     get_any_name := get_any_name E_ok;
     compile_model := compile_model E_ok;
     infer_request_infer := infer_request_infer E_ok;
     get_output_tensor := get_output_tensor E_ok;
     cv2_imread := cv2_imread E_ok;
     putText_mask := putText_mask E_ok;
     cv2_imwrite := fun _ _ _ => Ok false |}.

(** * The orchestrator: [main] *)

(** matplotlib, as [main] uses it: the import of [pyplot], the creation
    of the two axes, and the display of an image on axis [i] with its
    title and with the axis ticks switched off. *)
Record PlotEnv := mk_PlotEnv {
  import_pyplot : World -> result unit;
  plt_subplots : World -> result unit;
  axs_imshow : World -> nat -> ndarray Z -> result unit
}.

(** [except ImportError]: only an [ImportError], or its subclass
    [ModuleNotFoundError], is caught. *)
Definition is_ImportError (e : exn) : bool :=
  match e with
  | Exception name =>
    String.eqb name "ImportError" || String.eqb name "ModuleNotFoundError"
  end.

Definition try_except_ImportError {A} (body : M A) (handler : M A) : M A :=
  fun w =>
    match body w with
    | (Ok a, w') => (Ok a, w')
    | (Raise e, w') => if is_ImportError e then handler w' else (Raise e, w')
    end.

(** [cv2.cvtColor(img, cv2.COLOR_BGR2RGB)]: channels 0 and 2 change
    places; an image with four channels loses the fourth; any other
    number of channels is refused. *)
Definition cv2_cvtColor_BGR2RGB (img : ndarray Z) : M (ndarray Z) :=
  let swapped := fun idx => match idx with
                            | [r; c; ch] => item img [r; c; (2 - ch)%nat]
                            | _ => item img idx
                            end in
  match shape img with
  | [h; w; 3%nat] => ret (mk_ndarray [h; w; 3%nat] swapped)
  | [h; w; 4%nat] => ret (mk_ndarray [h; w; 3%nat] swapped)
  | _ => raise (Exception "cv2.error")
  end.

(** Lines 406-413 and 420-427: an image read for display, or its red
    "Missing" placeholder. *)
Definition load_for_display (E : Env) (path : string) : M (ndarray Z) :=
  emit (EImread path) ;;;
  img <- (fun w => (Ok (cv2_imread E w path), w)) ;;
  match img with
  | None =>
    ret (cv2_putText E (np_zeros [256; 256; 3]%nat) "Missing" (50, 128)%nat 1
           [0; 0; 255] 2)
  | Some img => cv2_cvtColor_BGR2RGB img
  end.

(** Lines 401-434: the side-by-side display. *)
Definition show_results_body (E : Env) (P : PlotEnv) (input_image output_image : string)
  : M unit :=
  ask (import_pyplot P) ;;;
  ask (plt_subplots P) ;;;
  orig_img <- load_for_display E input_image ;;
  ask (fun w => axs_imshow P w 0%nat orig_img) ;;;
  result_img <- load_for_display E output_image ;;
  ask (fun w => axs_imshow P w 1%nat result_img).

Definition show_results (E : Env) (P : PlotEnv) (input_image output_image : string)
  : M unit :=
  try_except_ImportError (show_results_body E P input_image output_image) (ret tt).

(** Lines 377-436: inference and display, once the IR path is known. *)
Definition main_infer (E : Env) (P : PlotEnv) (ov_path : string) : M unit :=
  let input_image := "input.jpg" in
  let output_image := "output.jpg" in
  inference_start <- time_time E ;;
  success <- run_gpu_inference E ov_path input_image output_image ;;
  inference_end <- time_time E ;;
  program_end <- time_time E ;;
  if (success : bool) then show_results E P input_image output_image else ret tt.

(** Lines 365-436: what follows a successful download. *)
Definition main_after_download (E : Env) (P : PlotEnv) : M unit :=
  onnx_path <- export_realesrgan_to_onnx E ;;
  match onnx_path with
  | None => ret tt
  | Some onnx_path =>
    present <- os_path_exists onnx_path ;;
    if negb present then ret tt
    else
      ov_path <- convert_to_openvino E onnx_path ;;
      match ov_path with
      | None => ret tt
      | Some ov_path =>
        present <- os_path_exists ov_path ;;
        if negb present then ret tt else main_infer E P ov_path
      end
  end.

Definition main (E : Env) (P : PlotEnv) : M unit :=
  program_start <- time_time E ;;
  downloaded <- download_model E ;;
  if negb downloaded then ret tt else main_after_download E P.

(** The files that [main] may write. *)
Definition ir_file : string := xml_path_of onnx_file.

Definition ir_weights_file : string := bin_path_of ir_file.

Definition main_file (p : string) : Prop :=
  p = MODEL_PATH ∨ p = onnx_file ∨ p = ir_file ∨ p = ir_weights_file
  ∨ p = "output.jpg".

(** The external calls of [main] after the download. *)
Definition pipeline_event (e : event) : Prop :=
  export_event e ∨ convert_event onnx_file e
  ∨ inference_event ir_file "input.jpg" "output.jpg" e
  ∨ e = EImread "output.jpg".

Definition main_event (e : event) : Prop :=
  download_event e ∨ pipeline_event e.

(** A matplotlib that is not installed, and one that works. *)
Definition no_matplotlib : PlotEnv :=
  {| import_pyplot := fun _ => Raise (Exception "ModuleNotFoundError");
     plt_subplots := fun _ => Ok tt;
     axs_imshow := fun _ _ _ => Ok tt |}.

Definition matplotlib_ok : PlotEnv :=
  {| import_pyplot := fun _ => Ok tt;
     plt_subplots := fun _ => Ok tt;
     axs_imshow := fun _ _ _ => Ok tt |}.

(** The external calls of the three stages that come before inference. *)
Definition preparation_event (e : event) : Prop :=
  download_event e ∨ export_event e ∨ convert_event onnx_file e.

(** Some compilation is recorded among the events. *)
Definition compiled (evs : list event) : Prop :=
  ∃ m device, ECompileModel m device ∈ evs.

(** The events recorded from [w] to [w']. *)
Definition events_since (w w' : World) : list event :=
  drop (length (trace w)) (trace w').

Definition is_compile_event (e : event) : bool :=
  match e with
  | ECompileModel _ _ => true
  | _ => false
  end.

(** An environment in which the creation of a directory is refused. *)
Definition E_makedirs_fails : Env :=
  {| clock := steady_clock;
     requests_get := requests_get E_ok;
     open_wb := open_wb E_ok;
     file_write := file_write E_ok;
     os_makedirs := fun _ _ => Raise (Exception "PermissionError");
     RRDBNet := RRDBNet E_ok;
     torch_load := torch_load E_ok;
     load_state_dict := load_state_dict E_ok;
     torch_onnx_export := torch_onnx_export E_ok;
     ov_Core := ov_Core E_ok;
     ov_convert_model := ov_convert_model E_ok;
     ov_save_model := ov_save_model E_ok;
     core_read_model := core_read_model E_ok;
     model_reshape := model_reshape E_ok;
     available_devices := available_devices E_ok;
     get_any_name := get_any_name E_ok;
     compile_model := compile_model E_ok;
     infer_request_infer := infer_request_infer E_ok;
     get_output_tensor := get_output_tensor E_ok;
     cv2_imread := cv2_imread E_ok;
     putText_mask := putText_mask E_ok;
     cv2_imwrite := cv2_imwrite E_ok |}.

(** * Properties *)

(** ** Traces and the monad *)

Lemma transfers_app (t1 t2 : list event) :
  transfers (t1 ++ t2) = (transfers t1 + transfers t2)%nat.
Proof.
  induction t1 as [|e t1 IH]; [reflexivity|].
  destruct e; simpl; rewrite IH; reflexivity.
Qed.

Lemma emit_after (e : event) (w : World) : emit e w = (Ok tt, after e w).
Proof. reflexivity. Qed.

Lemma os_path_exists_true (path : string) (w : World) :
  is_Some (fs w !! path) → os_path_exists path w = (Ok true, w).
Proof. intros H. unfold os_path_exists. by rewrite bool_decide_eq_true_2. Qed.

Lemma os_path_exists_false (path : string) (w : World) :
  fs w !! path = None → os_path_exists path w = (Ok false, w).
Proof.
  intros H. unfold os_path_exists. rewrite bool_decide_eq_false_2; [done|].
  rewrite H. by intros [? ?].
Qed.

(** ** [download_model] *)

Section Download.
Context (E : Env).

Lemma download_model_present (w : World) :
  is_Some (fs w !! MODEL_PATH) → download_model E w = (Ok true, w).
Proof.
  intros H. unfold download_model, bind.
  by rewrite (os_path_exists_true _ _ H).
Qed.

(** One [f.write]: the file grows by [data], or the write raises and
    the file is as it was. *)
Lemma f_write_spec (path : string) (data c : list byte) (w : World) :
  fs w !! path = Some (FileBytes c) →
  ∃ r w',
    f_write E path data w = (r, w')
    ∧ transfers (trace w') = transfers (trace w)
    ∧ ((r = Ok tt ∧ fs w' !! path = Some (FileBytes (c ++ data)))
       ∨ ((∃ e, r = Raise e) ∧ fs w' !! path = Some (FileBytes c))).
Proof.
  intros Hc. unfold f_write, bind, ask, emit, write_file. simpl.
  destruct (file_write E _ path data) as [[]|e]; simpl.
  - eexists _, _. split; [reflexivity|]. simpl. split.
    + rewrite transfers_app. simpl. lia.
    + left. split; [done|]. rewrite Hc. by rewrite lookup_insert_eq.
  - eexists _, _. split; [reflexivity|]. simpl. split.
    + rewrite transfers_app. simpl. lia.
    + right. split; [by eexists|done].
Qed.

(** The write loop leaves a prefix of the chunks in the file: all of
    them when it completes. *)
Lemma write_chunks_spec (path : string) (chunks : list (list byte)) :
  ∀ (c : list byte) (w : World),
    fs w !! path = Some (FileBytes c) →
    ∃ r w' k,
      write_chunks E path chunks w = (r, w')
      ∧ transfers (trace w') = transfers (trace w)
      ∧ fs w' !! path = Some (FileBytes (c ++ concat (take k chunks)))
      ∧ (r = Ok tt → k = length chunks).
Proof.
  induction chunks as [|data rest IH]; intros c w Hc.
  - exists (Ok tt), w, 0%nat. simpl. rewrite app_nil_r. by repeat split.
  - destruct (f_write_spec path data c w Hc)
      as (r & w1 & Hw & Ht & [[-> Hf]|[[e ->] Hf]]).
    + destruct (IH (c ++ data)%list w1 Hf) as (r2 & w2 & k & Hr & Ht2 & Hf2 & Hk).
      exists r2, w2, (S k). simpl. unfold bind at 1. rewrite Hw, Hr.
      repeat split; [congruence| |].
      * by rewrite Hf2, <- app_assoc.
      * intros ->. by rewrite Hk.
    + exists (Raise e), w1, 0%nat. simpl. unfold bind at 1. rewrite Hw.
      repeat split; [done| |done]. by rewrite app_nil_r.
Qed.

(** Once the file is open, the call ends with a prefix of the streamed
    chunks at the artifact path, whatever its result; it fails when the
    stream breaks. *)
Lemma download_model_opened (w : World) (resp : response) :
  opened_for_writing E w resp →
  ∃ (r : bool) (w1 : World) (k : nat),
    download_model E w = (Ok r, w1)
    ∧ fs w1 !! MODEL_PATH = Some (FileBytes (concat (take k (body resp))))
    ∧ transfers (trace w1) = S (transfers (trace w))
    ∧ (stream_fault resp = true → r = false).
Proof.
  intros (Habs & Hget & Hst & Hlen & Hopen).
  unfold download_model. unfold bind at 1.
  rewrite (os_path_exists_false _ _ Habs).
  unfold try_except. unfold bind at 1. rewrite emit_after.
  unfold bind at 1, ask at 1. rewrite Hget.
  unfold bind at 1, raise_for_status. rewrite Hst. unfold ret at 1.
  unfold bind at 1.
  assert (∃ n, total_size_of resp (after (EHttpGet model_url) w)
               = (Ok n, after (EHttpGet model_url) w)) as [n ->].
  { unfold total_size_of. destruct (content_length resp); [by eexists..|done]. }
  unfold bind at 1. rewrite emit_after.
  unfold bind at 1, ask at 1. rewrite Hopen.
  unfold bind at 1, write_file at 1. unfold bind at 1.
  match goal with
  | |- context [write_chunks E MODEL_PATH (body resp) ?w0] =>
    destruct (write_chunks_spec MODEL_PATH (body resp) [] w0)
      as (r & w1 & k & Hw & Ht & Hf & Hk)
  end.
  { simpl. by rewrite lookup_insert_eq. }
  rewrite Hw. simpl in Hf, Ht.
  rewrite !transfers_app in Ht. simpl in Ht.
  destruct r as [[]|e].
  - unfold bind at 1. destruct (stream_fault resp); simpl.
    + exists false, w1, k. repeat split; [done|lia].
    + exists true, w1, k. repeat split; [done|lia|done].
  - exists false, w1, k. repeat split; [done|lia].
Qed.

(** Whatever its result, a call sends at most one request; a successful
    call leaves a file at the artifact path. *)
Lemma download_model_outcome (w w1 : World) (r : result bool) :
  download_model E w = (r, w1) →
  (transfers (trace w1) ≤ S (transfers (trace w)))%nat
  ∧ (r = Ok true → is_Some (fs w1 !! MODEL_PATH)).
Proof.
  intros Hrun.
  destruct (fs w !! MODEL_PATH) as [f|] eqn:Hf.
  - rewrite download_model_present in Hrun by (by rewrite Hf).
    injection Hrun as <- <-. split; [lia|]. intros _. by rewrite Hf.
  - pose proof Hrun as Hrun'.
    unfold download_model in Hrun. unfold bind at 1 in Hrun.
    rewrite (os_path_exists_false _ _ Hf) in Hrun.
    unfold try_except in Hrun. unfold bind at 1 in Hrun. rewrite emit_after in Hrun.
    unfold bind at 1, ask at 1 in Hrun.
    destruct (requests_get E _ model_url) as [resp|e] eqn:Hget.
    2:{ injection Hrun as <- <-. simpl. rewrite transfers_app. simpl. split; [lia|done]. }
    unfold bind at 1, raise_for_status in Hrun.
    destruct (status_ok resp) eqn:Hst.
    2:{ injection Hrun as <- <-. simpl. rewrite transfers_app. simpl. split; [lia|done]. }
    unfold ret at 1, bind at 1, total_size_of in Hrun.
    destruct (content_length resp) eqn:Hlen.
    3:{ injection Hrun as <- <-. simpl. rewrite transfers_app. simpl. split; [lia|done]. }
    all: unfold ret at 1, bind at 1 in Hrun; rewrite emit_after in Hrun.
    all: unfold bind at 1, ask at 1 in Hrun.
    all: destruct (open_wb E _ MODEL_PATH) as [[]|e] eqn:Hopen.
    all: try (injection Hrun as <- <-; simpl; rewrite !transfers_app; simpl;
              split; [lia|done]).
    all: destruct (download_model_opened w resp) as (r' & w1' & k & Hd & Hfs & Ht & _);
      [repeat split; [done..|by rewrite Hlen|done]|].
    all: rewrite Hd in Hrun'; injection Hrun' as <- <-.
    all: split; [lia|]; intros _; by rewrite Hfs.
Qed.

(** C6, as amended.  A file present at the artifact path makes
    [download_model] return success at once, leaving the world as it was:
    no request is sent and the file is not read.  Hence, whenever a first
    call leaves a file at the artifact path, as every successful call
    does, a second call is such a cache hit, and the two calls together
    sent at most one request. *)
Theorem download_model_cache_hit (w : World) :
  (is_Some (fs w !! MODEL_PATH) → download_model E w = (Ok true, w))
  ∧ (∀ (r : result bool) (w1 : World),
       download_model E w = (r, w1) →
       (r = Ok true → is_Some (fs w1 !! MODEL_PATH))
       ∧ (is_Some (fs w1 !! MODEL_PATH) →
          download_model E w1 = (Ok true, w1)
          ∧ (transfers (trace w1) ≤ S (transfers (trace w)))%nat)).
Proof.
  split; [apply download_model_present|].
  intros r w1 Hrun. destruct (download_model_outcome w w1 r Hrun) as [Ht Hfile].
  split; [exact Hfile|]. intros Hsome.
  split; [by apply download_model_present|done].
Qed.

(** C9.  When the body stream breaks after the destination file has been
    opened, [download_model] returns failure and leaves at the artifact
    path what was written so far; the next call finds that file and
    returns success at once, leaving the world as it was. *)
Theorem download_model_partial_file (w : World) (resp : response) :
  opened_for_writing E w resp →
  stream_fault resp = true →
  ∃ (w1 : World) (k : nat),
    download_model E w = (Ok false, w1)
    ∧ fs w1 !! MODEL_PATH = Some (FileBytes (concat (take k (body resp))))
    ∧ download_model E w1 = (Ok true, w1).
Proof.
  intros Hopen Hfault.
  destruct (download_model_opened w resp Hopen) as (r & w1 & k & Hd & Hfs & _ & Hr).
  rewrite (Hr Hfault) in Hd. exists w1, k. repeat split; [done..|].
  apply download_model_present. by rewrite Hfs.
Qed.

End Download.

(** C6, as stated, at a server that answers 404: both calls send a
    request and the second call fails. *)
Lemma download_model_twice_counterexample :
  let w1 := (download_model E_404 w_init).2 in
  let w2 := (download_model E_404 w1).2 in
  (download_model E_404 w1).1 = Ok false
  ∧ transfers (trace w2) = 2%nat
  ∧ ¬ ((download_model E_404 w1).1 = Ok true
       ∧ (transfers (trace w2) ≤ S (transfers (trace w_init)))%nat).
Proof.
  cbv zeta. split; [vm_compute; reflexivity|].
  split; [vm_compute; reflexivity|].
  intros [H _]. vm_compute in H. discriminate H.
Qed.

Lemma download_model_cache_hit_witness :
  ∃ w1 : World,
    download_model E_ok w_init = (Ok true, w1)
    ∧ is_Some (fs w1 !! MODEL_PATH)
    ∧ download_model E_ok w1 = (Ok true, w1)
    ∧ (transfers (trace w1) ≤ 1)%nat.
Proof.
  assert (H1 : (download_model E_ok w_init).1 = Ok true) by (vm_compute; reflexivity).
  destruct (download_model E_ok w_init) as [r w1] eqn:Hrun.
  simpl in H1. subst r. exists w1. split; [reflexivity|].
  destruct (proj2 (download_model_cache_hit E_ok w_init) _ _ Hrun) as [Hfile Hhit].
  split; [exact (Hfile eq_refl)|]. exact (Hhit (Hfile eq_refl)).
Defined.

Lemma download_model_partial_file_witness :
  ∃ (w1 : World) (k : nat),
    download_model E_dropped w_init = (Ok false, w1)
    ∧ fs w1 !! MODEL_PATH = Some (FileBytes (concat (take k (body response_dropped))))
    ∧ download_model E_dropped w1 = (Ok true, w1).
Proof.
  apply (download_model_partial_file E_dropped w_init response_dropped).
  - repeat split; try reflexivity. discriminate.
  - reflexivity.
Defined.

(** ** [export_realesrgan_to_onnx] *)

Lemma bound_params_app (t1 t2 : list event) :
  bound_params (t1 ++ t2) = bound_params t1 ++ bound_params t2.
Proof.
  induction t1 as [|e t1 IH]; [reflexivity|].
  destruct e; simpl; rewrite ?IH; reflexivity.
Qed.

Ltac bp := simpl; rewrite !bound_params_app; simpl; rewrite ?app_nil_r; reflexivity.

(** The ordered key test of lines 98-109, case by case. *)
Lemma state_dict_params_cases (sd : gmap string pyobj) :
  (∀ v, sd !! "params_ema" = Some v → state_dict_params sd = v)
  ∧ (sd !! "params_ema" = None →
     ∀ v, sd !! "params" = Some v → state_dict_params sd = v)
  ∧ (sd !! "params_ema" = None → sd !! "params" = None →
     ∀ v, sd !! "model" = Some v → state_dict_params sd = v)
  ∧ (sd !! "params_ema" = None → sd !! "params" = None → sd !! "model" = None →
     state_dict_params sd = PDict sd).
Proof.
  unfold state_dict_params. repeat split.
  - intros v ->. reflexivity.
  - intros -> v ->. reflexivity.
  - intros -> -> v ->. reflexivity.
  - intros -> -> ->. reflexivity.
Qed.

(** C2.  Once the checkpoint is loaded as the container [sd], the
    exporter binds exactly one parameter set [b]: the value under
    "params_ema" when that key is present, whatever else the container
    holds; otherwise the value under "params"; otherwise the value under
    "model"; and the whole container when none of the three keys is
    present. *)
Theorem export_layout_precedence (E : Env) (w : World) (sd : gmap string pyobj) :
  RRDBNet E w = Ok tt →
  torch_load E (after (ETorchLoad MODEL_PATH) w) MODEL_PATH = Ok sd →
  ∃ (r : option string) (w1 : World) (b : pyobj),
    export_realesrgan_to_onnx E w = (Ok r, w1)
    ∧ bound_params (trace w1) = bound_params (trace w) ++ [b]
    ∧ (∀ v, sd !! "params_ema" = Some v → b = v)
    ∧ (sd !! "params_ema" = None → ∀ v, sd !! "params" = Some v → b = v)
    ∧ (sd !! "params_ema" = None → sd !! "params" = None →
       ∀ v, sd !! "model" = Some v → b = v)
    ∧ (sd !! "params_ema" = None → sd !! "params" = None → sd !! "model" = None →
       b = PDict sd).
Proof.
  intros Hnet Hload.
  assert (∃ r w1, export_realesrgan_to_onnx E w = (Ok r, w1)
                  ∧ bound_params (trace w1)
                    = bound_params (trace w) ++ [state_dict_params sd])
    as (r & w1 & Hrun & Hb).
  { unfold export_realesrgan_to_onnx, try_except.
    unfold bind at 1, ask at 1. rewrite Hnet.
    unfold bind at 1. rewrite emit_after.
    unfold bind at 1, ask at 1. rewrite Hload.
    unfold bind at 1. rewrite emit_after.
    unfold bind at 1, ask at 1.
    destruct (load_state_dict E _ _) as [[]|e]; [|eexists _, _; split; [reflexivity|bp]].
    unfold bind at 1. rewrite emit_after.
    unfold bind at 1, ask at 1.
    destruct (torch_onnx_export E _ _) as [written|e];
      [|eexists _, _; split; [reflexivity|bp]].
    unfold bind at 1.
    destruct written; unfold write_file, ret, bind, os_path_exists; simpl;
      destruct (bool_decide _); eexists _, _; (split; [reflexivity|bp]). }
  exists r, w1, (state_dict_params sd).
  destruct (state_dict_params_cases sd) as (H1 & H2 & H3 & H4).
  repeat split; auto.
Qed.

Lemma export_layout_precedence_witness :
  ∃ (r : option string) (w1 : World) (b : pyobj),
    export_realesrgan_to_onnx E_ok w_init = (Ok r, w1)
    ∧ bound_params (trace w1) = [b]
    ∧ b = PDict {[ "conv_first.weight" := PTensor 1 ]}.
Proof.
  destruct (export_layout_precedence E_ok w_init sample_checkpoint)
    as (r & w1 & b & Hrun & Hb & Hema & _); [reflexivity..|].
  exists r, w1, b. repeat split; [exact Hrun|exact Hb|].
  apply Hema. vm_compute. reflexivity.
Defined.

(** ** [convert_to_openvino] and [convert_step_by_step] *)

Section Convert.
Context (E : Env) (onnx_path : string).


Lemma save_model_spec (m : ov_model) (path : string) (c : bool) (w : World) :
  ∃ r w', save_model E m path c w = (r, w')
          ∧ trace w' = trace w ++ [ESaveModel m path c].
Proof.
  unfold save_model. unfold bind at 1. rewrite emit_after.
  unfold bind, ask.
  destruct (ov_save_model E _ m path c) as [[]|e]; by eexists _, _.
Qed.










(** The weights file beside an ".xml" path is the ".bin" path of the
    same stem, a different file. *)
Lemma string_app_assoc (s t u : string) : (s +:+ t) +:+ u = s +:+ (t +:+ u).
Proof.
  induction s as [|c s IH]; [reflexivity|].
  change (String c ((s +:+ t) +:+ u) = String c (s +:+ (t +:+ u))).
  f_equal. exact IH.
Qed.




(** What the direct path records when it completes: the conversion and
    one save with half-precision compression. *)
Lemma convert_direct_ok (xml_path : string) (w w1 : World) (r : option string) :
  convert_direct E onnx_path xml_path w = (Ok r, w1) →
  (∃ m, trace w1 = trace w ++ [EConvertModel onnx_path; ESaveModel m xml_path true])
  ∧ (fs w1 !! xml_path = None → r = None).
Proof.
  unfold convert_direct. unfold bind at 1. rewrite emit_after.
  unfold bind at 1, ask at 1.
  destruct (ov_convert_model E _ onnx_path) as [m|e]; [|done].
  destruct (save_model_spec m xml_path true (after (EConvertModel onnx_path) w))
    as (rs & ws & Hs & Ht).
  unfold bind at 1. rewrite Hs. destruct rs as [[]|e]; [|done].
  unfold bind, os_path_exists.
  destruct (bool_decide (is_Some (fs ws !! xml_path))) eqn:Hex;
    intros [= <- <-]; (split; [exists m; rewrite Ht; simpl; by rewrite <- app_assoc|]).
  - apply bool_decide_eq_true in Hex. intros Hnone. rewrite Hnone in Hex.
    by destruct Hex.
  - done.
Qed.


Lemma convert_to_openvino_unfold (w : World) :
  os_makedirs E (after (EMakedirs ov_dir) w) ov_dir = Ok tt →
  convert_to_openvino E onnx_path w
  = try_except (convert_direct E onnx_path (xml_path_of onnx_path))
      (fun e => convert_step_by_step E onnx_path (xml_path_of onnx_path))
      (after (EMakedirs ov_dir) w).
Proof.
  intros Hmk. unfold convert_to_openvino. unfold bind at 1. rewrite emit_after.
  unfold bind at 1, ask at 1. by rewrite Hmk.
Qed.


(** C10.  After the output directory has been made: when the direct
    conversion completes without raising and no file exists at the IR path,
    [convert_to_openvino] returns [None] from the world the direct path
    left, whose trace has grown by the directory creation, the conversion
    and the compressed save only.  And whenever a run of the compiler has
    re-read the graph, which is the first recorded call of the step-by-step
    path, the direct conversion had raised. *)
Theorem convert_missing_file_no_fallback (w : World) :
  os_makedirs E (after (EMakedirs ov_dir) w) ov_dir = Ok tt →
  let xml_path := xml_path_of onnx_path in
  let w0 := after (EMakedirs ov_dir) w in
  (∀ r w1,
     convert_direct E onnx_path xml_path w0 = (Ok r, w1) →
     fs w1 !! xml_path = None →
     convert_to_openvino E onnx_path w = (Ok None, w1)
     ∧ ∃ m, trace w1
            = trace w ++ [EMakedirs ov_dir; EConvertModel onnx_path;
                          ESaveModel m xml_path true])
  ∧ (∀ r w2 evs,
       convert_to_openvino E onnx_path w = (r, w2) →
       trace w2 = trace w0 ++ evs →
       EReadModel onnx_path ∈ evs →
       ∃ e w1, convert_direct E onnx_path xml_path w0 = (Raise e, w1)).
Proof.
  intros Hmk xml_path w0. split.
  - intros r w1 Hd Hnone.
    destruct (convert_direct_ok xml_path w0 w1 r Hd) as [[m Ht] Hr].
    rewrite (Hr Hnone) in Hd.
    rewrite (convert_to_openvino_unfold w Hmk).
    unfold try_except. fold xml_path w0. rewrite Hd. split; [done|].
    exists m. rewrite Ht. subst w0. simpl. by rewrite <- app_assoc.
  - intros r w2 evs Hrun Ht Hin.
    rewrite (convert_to_openvino_unfold w Hmk) in Hrun.
    unfold try_except in Hrun. fold xml_path w0 in Hrun.
    destruct (convert_direct E onnx_path xml_path w0) as [[r1|e] w1] eqn:Hd;
      [|by exists e, w1].
    injection Hrun as <- <-.
    destruct (convert_direct_ok xml_path w0 w1 r1 Hd) as [[m Ht1] _].
    rewrite Ht1 in Ht. apply app_inv_head in Ht. subst evs.
    apply elem_of_cons in Hin as [Hin|Hin]; [discriminate Hin|].
    apply elem_of_cons in Hin as [Hin|Hin]; [discriminate Hin|].
    by apply elem_of_nil in Hin.
Qed.

End Convert.


Lemma convert_missing_file_no_fallback_witness :
  let w1 := (convert_to_openvino E_not_saved "realesrgan_x4.onnx" w_init).2 in
  convert_to_openvino E_not_saved "realesrgan_x4.onnx" w_init = (Ok None, w1)
  ∧ ∃ m, trace w1
         = [EMakedirs ov_dir; EConvertModel "realesrgan_x4.onnx";
            ESaveModel m "ov_model/realesrgan_x4.xml" true].
Proof.
  destruct (convert_missing_file_no_fallback E_not_saved "realesrgan_x4.onnx" w_init)
    as [H _]; [reflexivity|].
  apply (H None); vm_compute; reflexivity.
Defined.

(** ** The stages of [run_gpu_inference] *)

Lemma np_transpose_201 {A} (a : ndarray A) (s0 s1 s2 : nat) (w : World) :
  shape a = [s0; s1; s2] →
  ∃ t, np_transpose a [2; 0; 1]%nat w = (Ok t, w)
       ∧ shape t = [s2; s0; s1]
       ∧ ∀ k i j, item t [k; i; j] = item a [i; j; k].
Proof.
  intros Hs. unfold np_transpose. rewrite Hs. simpl.
  eexists. split; [reflexivity|]. split; reflexivity.
Qed.

Lemma np_transpose_120 {A} (a : ndarray A) (s0 s1 s2 : nat) (w : World) :
  shape a = [s0; s1; s2] →
  ∃ t, np_transpose a [1; 2; 0]%nat w = (Ok t, w)
       ∧ shape t = [s1; s2; s0]
       ∧ ∀ i j k, item t [i; j; k] = item a [k; i; j].
Proof.
  intros Hs. unfold np_transpose. rewrite Hs. simpl.
  eexists. split; [reflexivity|]. split; reflexivity.
Qed.

Lemma preprocess_shape (img : ndarray Z) (h w c : nat) (world : World) :
  shape img = [h; w; c] →
  ∃ t, preprocess img world = (Ok t, world) ∧ shape t = [1; c; h; w]%nat.
Proof.
  intros Hs. unfold preprocess.
  destruct (np_transpose_201
              (array_map (fun v => f32_div (f32_of_Z v) (f32_of_Z 255)) img)
              h w c world Hs) as (t & Ht & Hsh & _).
  unfold bind. rewrite Ht. eexists. split; [reflexivity|]. simpl. by rewrite Hsh.
Qed.

Lemma floor_multiple_eq (n : nat) : ((n / 64) * 64 = n ↔ n mod 64 = 0)%nat.
Proof.
  pose proof (Nat.div_mod n 64 ltac:(lia)). lia.
Qed.

Lemma floor_multiple_pos (n : nat) : (64 ≤ n → (n / 64) * 64 ≠ 0)%nat.
Proof.
  intros H. pose proof (Nat.div_mod n 64 ltac:(lia)).
  pose proof (Nat.mod_upper_bound n 64 ltac:(lia)). lia.
Qed.

(** C1, as amended.  For an image of height [h] and width [w] that are
    both at least 64, or both multiples of 64, shape normalisation
    returns an image of height [(h / 64) * 64] and width [(w / 64) * 64],
    which is what preprocessing receives.  When [h] and [w] are multiples
    of 64 the image is returned unchanged; otherwise it is the image
    rescaled to the new size by [cv2.resize], not a sub-region of the
    original. *)
Theorem resize_to_multiple_of_64_spec (img : ndarray Z) (h w c : nat) (world : World) :
  shape img = [h; w; c] →
  (64 ≤ h ∧ 64 ≤ w)%nat ∨ (h mod 64 = 0 ∧ w mod 64 = 0)%nat →
  ∃ img' : ndarray Z,
    resize_to_multiple_of_64 img world = (Ok img', world)
    ∧ shape img' = [(h / 64) * 64; (w / 64) * 64; c]%nat
    ∧ ((h mod 64 = 0 ∧ w mod 64 = 0)%nat → img' = img)
    ∧ (¬ (h mod 64 = 0 ∧ w mod 64 = 0)%nat →
       cv2_resize img ((w / 64) * 64, (h / 64) * 64)%nat world = (Ok img', world))
    ∧ ∃ t, preprocess img' world = (Ok t, world)
           ∧ shape t = [1; c; (h / 64) * 64; (w / 64) * 64]%nat.
Proof.
  intros Hs Hsize. unfold resize_to_multiple_of_64. rewrite Hs.
  destruct (decide (h mod 64 = 0 ∧ w mod 64 = 0)%nat) as [[Hh Hw]|Hnot].
  - rewrite bool_decide_eq_false_2.
    2:{ rewrite <- floor_multiple_eq in Hh, Hw. lia. }
    exists img. pose proof Hh as Hh'. pose proof Hw as Hw'.
    apply floor_multiple_eq in Hh', Hw'. rewrite Hh', Hw'.
    split; [done|]. split; [done|]. split; [done|]. split; [tauto|].
    by apply preprocess_shape.
  - destruct Hsize as [[Hh Hw]|?]; [|tauto].
    rewrite bool_decide_eq_true_2.
    2:{ rewrite <- !floor_multiple_eq in Hnot. lia. }
    unfold cv2_resize. rewrite Hs.
    rewrite bool_decide_eq_false_2.
    2:{ pose proof (floor_multiple_pos h Hh). pose proof (floor_multiple_pos w Hw). lia. }
    eexists. split; [reflexivity|]. split; [reflexivity|].
    split; [tauto|]. split; [reflexivity|].
    by apply preprocess_shape.
Qed.

(** C1, as stated, at [gradient_image]: the 127 x 64 image becomes a
    64 x 64 image whose row 0 blends rows 0 and 1 of the original and
    whose row 63 blends rows 125 and 126, where the original holds 63; it
    is no 64 x 64 sub-region of the original at any offset. *)
Lemma resize_is_not_crop_counterexample :
  ∃ out : ndarray Z,
    resize_to_multiple_of_64 gradient_image w_init = (Ok out, w_init)
    ∧ shape out = [64; 64; 3]%nat
    ∧ item out [0; 0; 0]%nat ≤ 1
    ∧ 125 ≤ item out [63; 0; 0]%nat
    ∧ item gradient_image [63; 0; 0]%nat = 63
    ∧ ¬ ∃ oy ox : nat,
          ∀ i j ch : nat, (i < 64)%nat → (j < 64)%nat → (ch < 3)%nat →
            item out [i; j; ch] = item gradient_image [oy + i; ox + j; ch]%nat.
Proof.
  eexists. split; [reflexivity|]. split; [reflexivity|].
  split; [vm_compute; discriminate|]. split; [vm_compute; discriminate|].
  split; [reflexivity|].
  intros (oy & ox & Hcrop).
  pose proof (Hcrop 0 0 0 ltac:(lia) ltac:(lia) ltac:(lia))%nat as H0.
  pose proof (Hcrop 63 0 0 ltac:(lia) ltac:(lia) ltac:(lia))%nat as H63.
  change (item gradient_image [(oy + 0)%nat; (ox + 0)%nat; 0%nat])
    with (Z.of_nat (oy + 0)) in H0.
  change (item gradient_image [(oy + 63)%nat; (ox + 0)%nat; 0%nat])
    with (Z.of_nat (oy + 63)) in H63.
  match type of H0 with
  | ?l = _ => let v := eval vm_compute in l in change l with v in H0
  end.
  match type of H63 with
  | ?l = _ => let v := eval vm_compute in l in change l with v in H63
  end.
  lia.
Qed.

Lemma resize_to_multiple_of_64_spec_witness :
  ∃ img' : ndarray Z,
    resize_to_multiple_of_64 grey_image w_init = (Ok img', w_init)
    ∧ shape img' = [256; 256; 3]%nat
    ∧ ∃ t, preprocess img' w_init = (Ok t, w_init)
           ∧ shape t = [1; 3; 256; 256]%nat.
Proof.
  destruct (resize_to_multiple_of_64_spec grey_image 300 260 3 w_init)
    as (img' & Hrun & Hshape & _ & _ & Hpre); [reflexivity|left; lia|].
  exists img'. repeat split; [exact Hrun|exact Hshape|exact Hpre].
Defined.

Lemma astype_uint8_range (x : f32) : 0 ≤ astype_uint8 x ≤ 255.
Proof.
  destruct x as [| | |s m e]; simpl; try lia.
  pose proof (Z.mod_pos_bound (cond_Zopp s (Z.shiftl (Z.pos m) e)) 256 ltac:(lia)).
  lia.
Qed.

(** The quantisation of lines 316 on sample values: 1/2 gives 127, values
    above 1 saturate at 255, negative values and NaN give 0. *)
Example quantise_samples :
  let q x := astype_uint8 (np_clip (f32_mul x (f32_of_Z 255)) (f32_of_Z 0) (f32_of_Z 255)) in
  q (f32_div (f32_of_Z 1) (f32_of_Z 2)) = 127
  ∧ q (f32_of_Z 1) = 255
  ∧ q (f32_of_Z 2) = 255
  ∧ q (f32_of_Z (-3)) = 0
  ∧ q S754_nan = 0.
Proof. vm_compute. repeat split. Qed.

(** The clamp of line 316: values below 0 go to 0, values above 255 go
    to 255, values in between are kept. *)
Lemma f32_of_Z_0 : f32_of_Z 0 = S754_zero false.
Proof. vm_compute. reflexivity. Qed.

Lemma f32_of_Z_255 : f32_of_Z 255 = S754_finite false 16711680 (-16).
Proof. vm_compute. reflexivity. Qed.

Lemma np_clip_below (y : f32) (mh : positive) (eh : Z) :
  SFltb y (S754_zero false) = true →
  np_clip y (S754_zero false) (S754_finite false mh eh) = S754_zero false.
Proof.
  unfold SFltb, np_clip, np_maximum, np_minimum.
  destruct y as [s|s| |s m e]; simpl; try discriminate;
    destruct s; simpl; try discriminate; reflexivity.
Qed.

Lemma np_clip_above (y : f32) (mh : positive) (eh : Z) :
  SFltb (S754_finite false mh eh) y = true →
  np_clip y (S754_zero false) (S754_finite false mh eh) = S754_finite false mh eh.
Proof.
  intros H. unfold SFltb in H. unfold np_clip, np_maximum, np_minimum.
  destruct y as [s|s| |s m e]; try discriminate H;
    destruct s; try discriminate H; try reflexivity.
  cbn [SFcompare] in H |- *.
  rewrite (Z.compare_antisym eh e), (ZC4 m mh).
  destruct (eh ?= e); try discriminate H; try reflexivity.
  destruct (Pos.compare_cont Eq mh m); try discriminate H; reflexivity.
Qed.

Lemma np_clip_within (y : f32) (mh : positive) (eh : Z) :
  SFleb (S754_zero false) y = true →
  SFleb y (S754_finite false mh eh) = true →
  np_clip y (S754_zero false) (S754_finite false mh eh) = y.
Proof.
  intros H0 H. unfold SFleb in H0, H. unfold np_clip, np_maximum, np_minimum.
  destruct y as [s|s| |s m e]; try discriminate H; try discriminate H0;
    destruct s; try discriminate H; try discriminate H0; try reflexivity.
  cbn [SFcompare] in H |- *.
  destruct (e ?= eh); try discriminate H; try reflexivity.
  destruct (Pos.compare_cont Eq m mh); try discriminate H; reflexivity.
Qed.

(** A mantissa is below 2 to the number of its digits. *)
Lemma digits2_pos_bound (m : positive) : Z.pos m < 2 ^ Z.pos (digits2_pos m).
Proof.
  induction m as [m IH|m IH|]; cbn [digits2_pos]; [| |reflexivity].
  - rewrite Pos2Z.inj_succ, Z.pow_succ_r by lia. lia.
  - rewrite Pos2Z.inj_succ, Z.pow_succ_r by lia. lia.
Qed.

(** On a [float32] between 0 and 255 the conversion to [uint8] is the
    integer part: nothing wraps around. *)
Lemma astype_uint8_within (y : f32) :
  valid_binary f32_prec f32_emax y = true →
  SFleb (S754_zero false) y = true →
  SFleb y (S754_finite false 16711680 (-16)) = true →
  astype_uint8 y = f32_trunc y ∧ 0 ≤ f32_trunc y ≤ 255.
Proof.
  intros Hv H0 H255.
  destruct y as [s|s| |s m e]; try (simpl; split; [reflexivity|lia]).
  destruct s; [discriminate H0|]. clear H0.
  assert (Hr : 0 ≤ Z.shiftl (Z.pos m) e ≤ 255).
  { unfold valid_binary, bounded, canonical_mantissa, fexp, emin in Hv.
    apply andb_prop in Hv as [Hc _]. apply Z.eqb_eq in Hc.
    unfold f32_prec, f32_emax in Hc.
    pose proof (digits2_pos_bound m) as Hd.
    assert (Hm : Z.pos m < 2 ^ 24).
    { eapply Z.lt_le_trans; [exact Hd|]. apply Z.pow_le_mono_r; lia. }
    clear Hd Hc.
    unfold SFleb in H255. cbn [SFcompare] in H255.
    destruct (e ?= -16) eqn:He; try discriminate H255.
    - apply Z.compare_eq in He. subst e.
      assert (Z.pos m ≤ 16711680).
      { pose proof (Pos.compare_spec m 16711680) as Hcmp.
        unfold Pos.compare in Hcmp. revert H255.
        destruct Hcmp as [Hcmp|Hcmp|Hcmp]; intros H255.
        - rewrite Hcmp. apply Z.le_refl.
        - apply Z.lt_le_incl. exact (Pos2Z.pos_lt_pos _ _ Hcmp).
        - discriminate H255. }
      rewrite Z.shiftl_div_pow2 by lia. change (2 ^ (- (-16))) with 65536.
      split; [apply Z.div_pos; lia|].
      apply Z.div_le_upper_bound; lia.
    - change (e < -16) in He.
      rewrite Z.shiftl_div_pow2 by lia.
      assert (Hp : 2 ^ 17 ≤ 2 ^ (- e)) by (apply Z.pow_le_mono_r; lia).
      split; [apply Z.div_pos; lia|].
      assert (Z.pos m / 2 ^ (- e) < 128); [|lia].
      apply Z.div_lt_upper_bound; [lia|].
      change (2 ^ 24) with (2 ^ 17 * 128) in Hm. nia. }
  cbn [astype_uint8 f32_trunc cond_Zopp].
  split; [apply Z.mod_small; lia|exact Hr].
Qed.

(** C7.  For a result tensor of shape (1, C, H, W), postprocessing
    returns an array of shape (H, W, C) whose element at (h, w, c) is the
    element at (0, c, h, w) of the result, multiplied by 255, clamped to
    [0, 255] and converted to an unsigned 8-bit integer.  The clamp does
    what its name says: a product below 0 gives the pixel 0, a product
    above 255 gives the pixel 255, and a product in between gives its
    integer part, without wrap-around.  Every element of the array lies
    in 0..255. *)
Theorem postprocess_spec (result : ndarray f32) (C H W : nat) (world : World) :
  shape result = [1; C; H; W]%nat →
  ∃ out : ndarray Z,
    postprocess result world = (Ok out, world)
    ∧ shape out = [H; W; C]
    ∧ (∀ h w c : nat,
         item out [h; w; c]
         = astype_uint8
             (np_clip (f32_mul (item result [0; c; h; w]%nat) (f32_of_Z 255))
                (f32_of_Z 0) (f32_of_Z 255)))
    ∧ (∀ h w c : nat,
         let y := f32_mul (item result [0; c; h; w]%nat) (f32_of_Z 255) in
         (SFltb y (f32_of_Z 0) = true → item out [h; w; c] = 0)
         ∧ (SFltb (f32_of_Z 255) y = true → item out [h; w; c] = 255)
         ∧ (SFleb (f32_of_Z 0) y = true → SFleb y (f32_of_Z 255) = true →
            item out [h; w; c] = astype_uint8 y
            ∧ (valid_binary f32_prec f32_emax y = true →
               item out [h; w; c] = f32_trunc y)))
    ∧ (∀ idx : list nat, 0 ≤ item out idx ≤ 255).
Proof.
  intros Hs. unfold postprocess, np_squeeze0. rewrite Hs.
  unfold bind at 1, ret at 1.
  match goal with
  | |- context [np_transpose ?a _] =>
    destruct (np_transpose_120 a C H W world eq_refl) as (t & Ht & Hsh & Hit)
  end.
  unfold bind. rewrite Ht. eexists. split; [reflexivity|].
  split; [exact Hsh|]. split; [|split].
  - intros h w c. simpl. by rewrite Hit.
  - intros h w c. cbn [item array_map]. rewrite Hit. cbn [item].
    set (y := f32_mul (item result [0; c; h; w]%nat) (f32_of_Z 255)).
    rewrite f32_of_Z_0. generalize f32_of_Z_255. intros ->. split; [|split].
    + intros Hlt. by rewrite (np_clip_below y _ _ Hlt).
    + intros Hgt. by rewrite (np_clip_above y _ _ Hgt).
    + intros H0 H255. rewrite (np_clip_within y _ _ H0 H255).
      split; [reflexivity|]. intros Hv.
      by destruct (astype_uint8_within y Hv H0 H255).
  - intros idx. simpl. apply astype_uint8_range.
Qed.

Lemma postprocess_spec_witness :
  ∃ out : ndarray Z,
    postprocess overshoot_output w_init = (Ok out, w_init)
    ∧ shape out = [2; 2; 3]%nat
    ∧ item out [1; 0; 0]%nat = 255
    ∧ item out [1; 0; 1]%nat = 0
    ∧ item out [1; 0; 2]%nat = 127.
Proof.
  destruct (postprocess_spec overshoot_output 3 2 2 w_init eq_refl)
    as (out & Hrun & Hshape & _ & Hclamp & _).
  exists out. split; [exact Hrun|]. split; [exact Hshape|].
  split; [|split].
  - apply (Hclamp 1 0 0)%nat. vm_compute. reflexivity.
  - apply (Hclamp 1 0 1)%nat. vm_compute. reflexivity.
  - destruct (Hclamp 1 0 2)%nat as (_ & _ & Hin).
    destruct Hin as [_ Htrunc]; [vm_compute; reflexivity..|].
    rewrite Htrunc; vm_compute; reflexivity.
Defined.

(** ** [run_gpu_inference] *)

Section Inference.
Context (E : Env) (ov_model_path input_image_path output_image_path : string).

(** C3.  When the enumerated devices do not include "GPU",
    [run_gpu_inference] returns [False]; the file system and the trace
    are as before the call: the IR was not read, nothing was compiled for
    any device, and no output image was written. *)
Theorem run_gpu_inference_fails_closed (w : World) (devices : list string) :
  available_devices E (tick w) = Ok devices →
  "GPU" ∉ devices →
  ∃ w' : World,
    run_gpu_inference E ov_model_path input_image_path output_image_path w
    = (Ok false, w')
    ∧ fs w' = fs w
    ∧ trace w' = trace w.
Proof.
  intros Hdev Hgpu. unfold run_gpu_inference, try_except.
  unfold bind at 1, ask at 1.
  destruct (ov_Core E w) as [[]|e]; [|by exists w].
  unfold bind at 1, time_time at 1. fold (tick w).
  unfold bind at 1, ask at 1. rewrite Hdev.
  rewrite bool_decide_eq_false_2 by done.
  by exists (tick w).
Qed.

End Inference.

Lemma run_gpu_inference_fails_closed_witness :
  ∃ w' : World,
    run_gpu_inference E_cpu_only "ov_model/realesrgan_x4.xml" "input.jpg" "output.jpg"
      w_init = (Ok false, w')
    ∧ fs w' = fs w_init
    ∧ trace w' = [].
Proof.
  apply (run_gpu_inference_fails_closed E_cpu_only _ _ _ w_init ["CPU"]).
  - reflexivity.
  - intros H. apply elem_of_cons in H as [H|H]; [discriminate H|].
    by apply elem_of_nil in H.
Defined.

(** ** Stepping through [run_gpu_inference] *)

Lemma bind_inv {A B} (c : M A) (k : A → M B) (w w' : World) (r : B) :
  bind c k w = (Ok r, w') →
  ∃ a w1, c w = (Ok a, w1) ∧ k a w1 = (Ok r, w').
Proof.
  unfold bind. destruct (c w) as [[a|e] w1]; [|done]. intros H. by exists a, w1.
Qed.

Lemma try_except_false_inv (body : M bool) (w w' : World) :
  try_except body (fun e => ret false) w = (Ok true, w') →
  body w = (Ok true, w').
Proof.
  unfold try_except. destruct (body w) as [[a|e] w1]; [done|]. by intros [= <-].
Qed.

Lemma printed_timings_app (t1 t2 : list event) :
  printed_timings (t1 ++ t2) = printed_timings t1 ++ printed_timings t2.
Proof.
  induction t1 as [|e t1 IH]; [reflexivity|].
  destruct e; simpl; rewrite ?IH; reflexivity.
Qed.

Lemma quiet_refl (w : World) : quiet 0 w w.
Proof. split; [done|]. exists []. by rewrite app_nil_r. Qed.

Lemma quiet_trans (n m : nat) (w w1 w2 : World) :
  quiet n w w1 → quiet m w1 w2 → quiet (m + n) w w2.
Proof.
  intros [Hn (e1 & Ht1 & Hp1)] [Hm (e2 & Ht2 & Hp2)]. split; [lia|].
  exists (e1 ++ e2). rewrite Ht2, Ht1, <- app_assoc. split; [done|].
  by rewrite printed_timings_app, Hp1, Hp2.
Qed.

Lemma quiet_after (e : event) (w : World) :
  printed_timings [e] = [] → quiet 0 w (after e w).
Proof. intros He. split; [done|]. by exists [e]. Qed.

Lemma quiet_fs (f : gmap string file) (w : World) :
  quiet 0 w (mk_World f (trace w) (ticks w)).
Proof. split; [done|]. exists []. simpl. by rewrite app_nil_r. Qed.

Section Steps.
Context (E : Env).

Lemma time_time_inv (w w1 : World) (t : Q) :
  time_time E w = (Ok t, w1) → t = clock E (ticks w) ∧ quiet 1 w w1.
Proof.
  intros [= <- <-]. split; [done|]. split; [done|].
  exists []. simpl. by rewrite app_nil_r.
Qed.

Lemma ask_inv {A} (oracle : World → result A) (w w1 : World) (a : A) :
  ask oracle w = (Ok a, w1) → oracle w = Ok a ∧ w1 = w.
Proof. unfold ask. by intros [= -> <-]. Qed.

Lemma emit_inv (e : event) (w w1 : World) (u : unit) :
  emit e w = (Ok u, w1) → w1 = after e w.
Proof. by intros [= <-]. Qed.

Lemma cv2_resize_pure (img : ndarray Z) (dsize : nat * nat) (w w1 : World)
    (r : result (ndarray Z)) :
  cv2_resize img dsize w = (r, w1) → w1 = w.
Proof.
  unfold cv2_resize. destruct dsize as [new_w new_h].
  destruct (shape img) as [|h [|w0 chans]]; try by intros [= _ <-].
  destruct (bool_decide _); by intros [= _ <-].
Qed.

Lemma resize_to_multiple_of_64_pure (img : ndarray Z) (w w1 : World)
    (r : result (ndarray Z)) :
  resize_to_multiple_of_64 img w = (r, w1) → w1 = w.
Proof.
  unfold resize_to_multiple_of_64.
  destruct (shape img) as [|h [|w0 chans]]; try by intros [= _ <-].
  destruct (bool_decide _); [apply cv2_resize_pure|by intros [= _ <-]].
Qed.

Lemma np_transpose_pure {A} (a : ndarray A) (axes : list nat) (w w1 : World)
    (r : result (ndarray A)) :
  np_transpose a axes w = (r, w1) → w1 = w.
Proof. unfold np_transpose. destruct (bool_decide _); by intros [= _ <-]. Qed.

Lemma preprocess_pure (img : ndarray Z) (w w1 : World) (r : result (ndarray f32)) :
  preprocess img w = (r, w1) → w1 = w.
Proof.
  unfold preprocess, bind.
  destruct (np_transpose _ _ w) as [[t|e] w2] eqn:Ht;
    apply np_transpose_pure in Ht as ->; by intros [= _ <-].
Qed.

Lemma postprocess_pure (result0 : ndarray f32) (w w1 : World) (r : result (ndarray Z)) :
  postprocess result0 w = (r, w1) → w1 = w.
Proof.
  unfold postprocess, np_squeeze0. unfold bind at 1.
  destruct (shape result0) as [|[|[|n]] sh]; try by intros [= _ <-].
  unfold ret at 1, bind.
  destruct (np_transpose _ _ w) as [[t|e] w2] eqn:Ht;
    apply np_transpose_pure in Ht as ->; by intros [= _ <-].
Qed.

Lemma input_partial_shape_pure (m : ov_model) (w w1 : World) (r : result PartialShape) :
  input_partial_shape m w = (r, w1) → w1 = w.
Proof.
  unfold input_partial_shape. destruct (input_shapes m !! 0%nat); by intros [= _ <-].
Qed.

Lemma shape_setitem_pure (s : PartialShape) (i : nat) (v : Z) (w w1 : World)
    (r : result PartialShape) :
  shape_setitem s i v w = (r, w1) → w1 = w.
Proof.
  unfold shape_setitem. destruct s; [by intros [= _ <-]|].
  destruct (bool_decide _); by intros [= _ <-].
Qed.

Lemma reshape_model_quiet (m m' : ov_model) (s : PartialShape) (w w1 : World) :
  reshape_model E m s w = (Ok m', w1) → quiet 0 w w1.
Proof.
  unfold reshape_model. intros H.
  apply bind_inv in H as (u & w2 & He & H). apply emit_inv in He as ->.
  apply bind_inv in H as (u2 & w3 & Ha & H). apply ask_inv in Ha as [_ ->].
  injection H as _ <-. by apply quiet_after.
Qed.

Lemma negotiate_shape_quiet (m m' : ov_model) (img : ndarray Z) (w w1 : World) :
  negotiate_shape E m img w = (Ok m', w1) → quiet 0 w w1.
Proof.
  unfold negotiate_shape. intros H.
  apply bind_inv in H as (s & w2 & Hs & H). apply input_partial_shape_pure in Hs as ->.
  destruct (shape_is_dynamic s).
  - apply bind_inv in H as (s2 & w2 & Hs & H). apply shape_setitem_pure in Hs as ->.
    apply bind_inv in H as (s3 & w2 & Hs & H). apply shape_setitem_pure in Hs as ->.
    by apply reshape_model_quiet in H.
  - injection H as _ <-. apply quiet_refl.
Qed.

End Steps.

Ltac read_clock H Hq :=
  let t := fresh "t" in
  let w1 := fresh "w" in
  let Hs := fresh "Hs" in
  let Hq' := fresh "Hq" in
  apply bind_inv in H as (t & w1 & Hs & H); cbv beta zeta in H;
  apply time_time_inv in Hs as [-> Hs];
  try rewrite (proj1 Hq) in H;
  pose proof (quiet_trans _ _ _ _ _ Hq Hs) as Hq';
  clear Hq Hs; rename Hq' into Hq; simpl in Hq.

Ltac pure_step H lem :=
  let a := fresh "a" in
  let w1 := fresh "w" in
  let Hs := fresh "Hs" in
  apply bind_inv in H as (a & w1 & Hs & H); cbv beta zeta in H;
  apply lem in Hs as ->.

Ltac ask_step H :=
  let a := fresh "a" in
  let w1 := fresh "w" in
  let Hs := fresh "Hs" in
  apply bind_inv in H as (a & w1 & Hs & H); cbv beta zeta in H;
  apply ask_inv in Hs as [_ ->].

Ltac emit_step H Hq :=
  let a := fresh "a" in
  let w1 := fresh "w" in
  let Hs := fresh "Hs" in
  let Hq' := fresh "Hq" in
  apply bind_inv in H as (a & w1 & Hs & H); cbv beta zeta in H;
  apply emit_inv in Hs as ->;
  match type of H with
  | context [after ?e ?w0] =>
    pose proof (quiet_trans _ _ _ _ _ Hq (quiet_after e w0 eq_refl)) as Hq'
  end;
  clear Hq; rename Hq' into Hq; simpl in Hq.

Section Timing.
Context (E : Env).

(** A successful run of the stages after image ingest reads the clock 19
    times, prints nothing before the end, and ends by printing the timing
    summary and the frame rate. *)
Lemma run_from_resize_inv (model : ov_model) (output_image_path : string)
    (total_start image_load_time : Q) (img : ndarray Z) (w w' : World) :
  run_from_resize E model output_image_path total_start image_load_time img w
  = (Ok true, w') →
  ∃ (w_last : World) (fps : option Q),
    quiet 19 w w_last
    ∧ w' = after (EPrintFPS fps)
             (after (EPrintTiming
                (timing_record image_load_time
                   (clock E (1 + ticks w) - clock E (0 + ticks w))%Q
                   (clock E (3 + ticks w) - clock E (2 + ticks w))%Q
                   (clock E (5 + ticks w) - clock E (4 + ticks w))%Q
                   (clock E (7 + ticks w) - clock E (6 + ticks w))%Q
                   (clock E (9 + ticks w) - clock E (8 + ticks w))%Q
                   (clock E (11 + ticks w) - clock E (10 + ticks w))%Q
                   (clock E (13 + ticks w) - clock E (12 + ticks w))%Q
                   (clock E (15 + ticks w) - clock E (14 + ticks w))%Q
                   (clock E (17 + ticks w) - clock E (16 + ticks w))%Q
                   (clock E (18 + ticks w) - total_start)%Q))
                w_last).
Proof.
  intros H. unfold run_from_resize in H. cbv zeta in H.
  pose proof (quiet_refl w) as Hq.
  read_clock H Hq.
  pure_step H resize_to_multiple_of_64_pure.
  read_clock H Hq. read_clock H Hq.
  pure_step H preprocess_pure.
  read_clock H Hq.
  pure_step H input_partial_shape_pure.
  ask_step H.
  read_clock H Hq.
  apply bind_inv in H as (m' & wn & Hn & H); cbv beta zeta in H.
  apply negotiate_shape_quiet in Hn.
  pose proof (quiet_trans _ _ _ _ _ Hq Hn) as Hq'.
  clear Hq Hn; rename Hq' into Hq; simpl in Hq.
  read_clock H Hq. read_clock H Hq. read_clock H Hq. read_clock H Hq.
  emit_step H Hq. ask_step H.
  read_clock H Hq. read_clock H Hq.
  emit_step H Hq. ask_step H.
  read_clock H Hq. read_clock H Hq.
  ask_step H.
  read_clock H Hq. read_clock H Hq.
  pure_step H postprocess_pure.
  read_clock H Hq. read_clock H Hq.
  emit_step H Hq.
  apply bind_inv in H as (written & wi & Hi & H); cbv beta zeta in H.
  apply ask_inv in Hi as [_ ->].
  apply bind_inv in H as (u & wf & Hf & H); cbv beta zeta in H.
  match type of Hq with
  | quiet _ _ ?wcur =>
    assert (Hw : quiet 0 wcur wf)
      by (destruct written; injection Hf as _ <-;
          [exact (quiet_fs _ wcur)|apply quiet_refl])
  end.
  pose proof (quiet_trans _ _ _ _ _ Hq Hw) as Hq'.
  clear Hq Hw Hf; rename Hq' into Hq; simpl in Hq.
  read_clock H Hq. read_clock H Hq.
  apply bind_inv in H as (u1 & wp & Hp & H). apply emit_inv in Hp as ->.
  apply bind_inv in H as (u2 & wp & Hp & H). apply emit_inv in Hp as ->.
  injection H as <-. eexists _, _. split; [exact Hq|reflexivity].
Qed.

Lemma load_image_quiet (input_image_path : string) (img : ndarray Z) (w w1 : World) :
  load_image E input_image_path w = (Ok img, w1) → quiet 0 w w1.
Proof.
  unfold load_image. intros H.
  apply bind_inv in H as (u & w2 & He & H). apply emit_inv in He as ->.
  apply bind_inv in H as (o & w2 & Ho & H). injection Ho as _ <-.
  destruct o; injection H as _ <-; by apply quiet_after.
Qed.

Lemma Qle_0_minus (a b : Q) : Qle b a → Qle 0 (a - b).
Proof. intros H. unfold Qminus. by apply -> Qle_minus_iff. Qed.

(** C8, as amended.  A successful run of [run_gpu_inference] prints one
    timing summary, followed by the frame rate and preceded by no other
    summary.  The summary holds the eleven stages image load, resize,
    preprocess, shape reconciliation, config, compile, inference, result
    extraction, postprocess, save and total, in that order.  Each duration
    is the difference of two readings of the wall clock, the later minus
    the earlier; it is non-negative when the clock did not step backwards. *)
Theorem timing_record_complete
    (ov_model_path input_image_path output_image_path : string) (w w' : World) :
  run_gpu_inference E ov_model_path input_image_path output_image_path w
  = (Ok true, w') →
  ∃ (evs : list event) (record : list (string * Q)) (fps : option Q),
    trace w' = trace w ++ evs ++ [EPrintTiming record; EPrintFPS fps]
    ∧ printed_timings evs = []
    ∧ map fst record = stage_labels
    ∧ map snd record
      = [ (clock E (4 + ticks w) - clock E (3 + ticks w))%Q;
          (clock E (6 + ticks w) - clock E (5 + ticks w))%Q;
          (clock E (8 + ticks w) - clock E (7 + ticks w))%Q;
          (clock E (10 + ticks w) - clock E (9 + ticks w))%Q;
          (clock E (12 + ticks w) - clock E (11 + ticks w))%Q;
          (clock E (14 + ticks w) - clock E (13 + ticks w))%Q;
          (clock E (16 + ticks w) - clock E (15 + ticks w))%Q;
          (clock E (18 + ticks w) - clock E (17 + ticks w))%Q;
          (clock E (20 + ticks w) - clock E (19 + ticks w))%Q;
          (clock E (22 + ticks w) - clock E (21 + ticks w))%Q;
          (clock E (23 + ticks w) - clock E (ticks w))%Q ]
    ∧ (clock_monotone E → Forall (Qle 0) (map snd record)).
Proof.
  intros H. apply try_except_false_inv in H.
  pose proof (quiet_refl w) as Hq.
  ask_step H.
  read_clock H Hq.
  apply bind_inv in H as (devices & wd & Hd & H). apply ask_inv in Hd as [_ ->].
  destruct (bool_decide ("GPU" ∈ devices)); [|discriminate H].
  read_clock H Hq.
  emit_step H Hq. ask_step H.
  read_clock H Hq. read_clock H Hq.
  apply bind_inv in H as (img & wl & Hl & H); cbv beta zeta in H.
  apply load_image_quiet in Hl.
  pose proof (quiet_trans _ _ _ _ _ Hq Hl) as Hq'.
  clear Hq Hl; rename Hq' into Hq; simpl in Hq.
  read_clock H Hq.
  apply run_from_resize_inv in H as (w_last & fps & Hq2 & ->).
  pose proof (quiet_trans _ _ _ _ _ Hq Hq2) as [_ (evs & Ht & Hp)].
  rewrite (proj1 Hq).
  eexists evs, _, fps. split; [simpl; rewrite Ht, <- !app_assoc; reflexivity|].
  split; [exact Hp|]. split; [reflexivity|]. split; [reflexivity|].
  intros Hmono. simpl.
  repeat (apply Forall_cons; split; [apply Qle_0_minus, Hmono; lia|]).
  apply Forall_nil_2.
Qed.

End Timing.

(** C8, as stated, at a wall clock that is set back between readings:
    the run succeeds and every duration of its summary is negative. *)
Lemma timing_negative_counterexample :
  let run := run_gpu_inference E_backwards "ov_model/realesrgan_x4.xml"
               "input.jpg" "output.jpg" w_init in
  run.1 = Ok true
  ∧ ∃ record : list (string * Q),
      printed_timings (trace run.2) = [record]
      ∧ map fst record = stage_labels
      ∧ Forall (fun d => Qlt d 0) (map snd record)
      ∧ ¬ Forall (Qle 0) (map snd record).
Proof.
  cbv zeta. split; [vm_compute; reflexivity|].
  eexists. split; [vm_compute; reflexivity|].
  split; [reflexivity|].
  split.
  - simpl. repeat (apply Forall_cons; split; [reflexivity|]). apply Forall_nil_2.
  - simpl. intros Hall. apply Forall_cons in Hall as [Hneg _].
    vm_compute in Hneg. by apply Hneg.
Qed.

Lemma steady_clock_monotone : clock_monotone E_ok.
Proof.
  intros i j Hij. simpl. unfold steady_clock. rewrite <- Zle_Qle. lia.
Defined.

Lemma timing_record_complete_witness :
  ∃ w' : World,
    run_gpu_inference E_ok "ov_model/realesrgan_x4.xml" "input.jpg" "output.jpg" w_init
    = (Ok true, w')
    ∧ ∃ (evs : list event) (record : list (string * Q)) (fps : option Q),
        trace w' = evs ++ [EPrintTiming record; EPrintFPS fps]
        ∧ map fst record = stage_labels
        ∧ Forall (Qle 0) (map snd record).
Proof.
  assert (H1 : (run_gpu_inference E_ok "ov_model/realesrgan_x4.xml" "input.jpg"
                  "output.jpg" w_init).1 = Ok true) by (vm_compute; reflexivity).
  destruct (run_gpu_inference E_ok "ov_model/realesrgan_x4.xml" "input.jpg"
              "output.jpg" w_init) as [r w'] eqn:Hrun.
  simpl in H1. subst r. exists w'. split; [reflexivity|].
  destruct (timing_record_complete E_ok _ _ _ _ _ Hrun)
    as (evs & record & fps & Ht & _ & Hl & _ & Hpos).
  exists evs, record, fps. repeat split; [exact Ht|exact Hl|].
  exact (Hpos steady_clock_monotone).
Defined.

(** ** Image ingest *)

Section Ingest.
Context (E : Env) (ov_model_path input_image_path output_image_path : string).

Lemma load_image_unreadable (w : World) :
  cv2_imread E (after (EImread input_image_path) w) input_image_path = None →
  load_image E input_image_path w
  = (Ok (default_image E), after (EImread input_image_path) w).
Proof.
  intros Hnone. unfold load_image. unfold bind at 1. rewrite emit_after.
  unfold bind. by rewrite Hnone.
Qed.

(** C5.  Suppose the executor has reached image ingest: the runtime was
    created, "GPU" is among the devices and the IR was read as [model].
    When [cv2.imread] then returns no image, ingest neither raises nor
    fails: it yields the placeholder, a 256 x 256 image with three
    channels that is 0 everywhere except under the rendering of the text
    "GPU Test", where it has the colour (0, 255, 0).  The executor then
    runs all the stages after ingest on the placeholder, which shape
    normalisation leaves unchanged. *)
Theorem run_gpu_inference_unreadable_image
    (w : World) (devices : list string) (model : ov_model) :
  let w_read := after (EReadModel ov_model_path) (tick (tick w)) in
  let w_load := tick (tick w_read) in
  let w_img := after (EImread input_image_path) w_load in
  ov_Core E w = Ok tt →
  available_devices E (tick w) = Ok devices →
  "GPU" ∈ devices →
  core_read_model E w_read ov_model_path = Ok model →
  cv2_imread E w_img input_image_path = None →
  load_image E input_image_path w_load = (Ok (default_image E), w_img)
  ∧ shape (default_image E) = [256; 256; 3]%nat
  ∧ (∀ r c ch : nat,
       item (default_image E) [r; c; ch]
       = if putText_mask E "GPU Test" (50, 128)%nat 1 2 r c
         then nth ch [0; 255; 0] 0
         else 0)
  ∧ (∀ w0 : World,
       resize_to_multiple_of_64 (default_image E) w0 = (Ok (default_image E), w0))
  ∧ run_gpu_inference E ov_model_path input_image_path output_image_path w
    = try_except
        (run_from_resize E model output_image_path
           (clock E (ticks w))
           (clock E (4 + ticks w) - clock E (3 + ticks w))%Q
           (default_image E))
        (fun e => ret false)
        (tick w_img).
Proof.
  intros w_read w_load w_img Hcore Hdev Hgpu Hread Hnone.
  split; [by apply load_image_unreadable|].
  split; [reflexivity|]. split; [reflexivity|]. split; [reflexivity|].
  unfold run_gpu_inference, try_except.
  unfold bind at 1, ask at 1. rewrite Hcore.
  unfold bind at 1, time_time at 1. fold (tick w).
  unfold bind at 1, ask at 1. rewrite Hdev.
  rewrite bool_decide_eq_true_2 by done.
  unfold bind at 1, time_time at 1. fold (tick (tick w)).
  unfold bind at 1. rewrite emit_after. fold w_read.
  unfold bind at 1, ask at 1. rewrite Hread.
  unfold bind at 1, time_time at 1. fold (tick w_read).
  unfold bind at 1, time_time at 1. fold (tick (tick w_read)). fold w_load.
  unfold bind at 1. rewrite (load_image_unreadable w_load Hnone). fold w_img.
  unfold bind at 1, time_time at 1. fold (tick w_img).
  reflexivity.
Qed.

End Ingest.

Lemma run_gpu_inference_unreadable_image_witness :
  let run := run_gpu_inference E_unreadable "ov_model/realesrgan_x4.xml"
               "missing.jpg" "output.jpg" w_init in
  run.1 = Ok true
  ∧ run
    = try_except
        (run_from_resize E_unreadable sample_model "output.jpg"
           (clock E_unreadable 0) (clock E_unreadable 4 - clock E_unreadable 3)%Q (default_image E_unreadable))
        (fun e => ret false)
        (tick (after (EImread "missing.jpg")
           (tick (tick (after (EReadModel "ov_model/realesrgan_x4.xml")
              (tick (tick w_init))))))).
Proof.
  cbv zeta. split; [vm_compute; reflexivity|].
  destruct (run_gpu_inference_unreadable_image E_unreadable "ov_model/realesrgan_x4.xml"
              "missing.jpg" "output.jpg" w_init ["CPU"; "GPU"] sample_model)
    as (_ & _ & _ & _ & Hrun);
    [reflexivity|reflexivity|apply list_elem_of_further, list_elem_of_here
    |reflexivity|reflexivity|exact Hrun].
Defined.

(** * Further properties *)

(** ** Pixel arithmetic *)

Lemma byte_range_cases (v : Z) :
  0 ≤ v ≤ 255 → v ∈ map Z.of_nat (seq 0 256).
Proof.
  intros Hv. apply list_elem_of_fmap. exists (Z.to_nat v). split; [lia|].
  apply elem_of_seq. lia.
Qed.

Lemma forallb_elem {A} (f : A → bool) (l : list A) (x : A) :
  forallb f l = true → x ∈ l → f x = true.
Proof.
  intros Hall Hx. rewrite forallb_forall in Hall. apply Hall.
  by apply list_elem_of_In.
Qed.

(** A byte divided by 255 in [float32] lies between 0 and 1. *)
Lemma normalise_unit (v : Z) : 0 ≤ v ≤ 255 → in_unit_interval (normalise v).
Proof.
  intros Hv.
  assert (Hall : forallb
            (fun v => SFleb (f32_of_Z 0) (normalise v) && SFleb (normalise v) (f32_of_Z 1))
            (map Z.of_nat (seq 0 256)) = true) by (vm_compute; reflexivity).
  pose proof (forallb_elem _ _ _ Hall (byte_range_cases _ Hv)) as H.
  apply andb_true_iff in H. exact H.
Qed.

(** Scaling back and quantising undoes the normalisation of a byte. *)
Lemma quantise_normalise (v : Z) : 0 ≤ v ≤ 255 → quantise (normalise v) = v.
Proof.
  intros Hv.
  assert (Hall : forallb (fun v => quantise (normalise v) =? v)
                   (map Z.of_nat (seq 0 256)) = true) by (vm_compute; reflexivity).
  pose proof (forallb_elem _ _ _ Hall (byte_range_cases _ Hv)) as H.
  by apply Z.eqb_eq in H.
Qed.

Lemma preprocess_items (img : ndarray Z) (h w c : nat) (world : World) :
  shape img = [h; w; c] →
  ∃ t : ndarray f32,
    preprocess img world = (Ok t, world)
    ∧ shape t = [1; c; h; w]%nat
    ∧ ∀ k i j : nat, item t [0; k; i; j]%nat = normalise (item img [i; j; k]).
Proof.
  intros Hs. unfold preprocess.
  destruct (np_transpose_201
              (array_map (fun v => f32_div (f32_of_Z v) (f32_of_Z 255)) img)
              h w c world Hs) as (t & Ht & Hsh & Hit).
  unfold bind. rewrite Ht. eexists. split; [reflexivity|].
  split; [simpl; by rewrite Hsh|].
  intros k i j. simpl. by rewrite Hit.
Qed.

Lemma postprocess_items (result : ndarray f32) (C H W : nat) (world : World) :
  shape result = [1; C; H; W]%nat →
  ∃ out : ndarray Z,
    postprocess result world = (Ok out, world)
    ∧ shape out = [H; W; C]
    ∧ ∀ h w c : nat, item out [h; w; c] = quantise (item result [0; c; h; w]%nat).
Proof.
  intros Hs. unfold postprocess, np_squeeze0. rewrite Hs.
  unfold bind at 1, ret at 1.
  match goal with
  | |- context [np_transpose ?a _] =>
    destruct (np_transpose_120 a C H W world eq_refl) as (t & Ht & Hsh & Hit)
  end.
  unfold bind. rewrite Ht. eexists. split; [reflexivity|].
  split; [exact Hsh|]. intros h w c. simpl. by rewrite Hit.
Qed.

(** X1.  Preprocessing turns an image of shape (h, w, c) into a tensor of
    shape (1, c, h, w) whose element at (0, k, i, j) is the pixel at
    (i, j, k) divided by 255 in [float32]; for a pixel in 0..255 that
    element lies between 0 and 1. *)
Theorem preprocess_normalises (img : ndarray Z) (h w c : nat) (world : World) :
  shape img = [h; w; c] →
  ∃ t : ndarray f32,
    preprocess img world = (Ok t, world)
    ∧ shape t = [1; c; h; w]%nat
    ∧ (∀ k i j : nat, item t [0; k; i; j]%nat = normalise (item img [i; j; k]))
    ∧ (∀ k i j : nat,
         0 ≤ item img [i; j; k] ≤ 255 → in_unit_interval (item t [0; k; i; j]%nat)).
Proof.
  intros Hs. destruct (preprocess_items img h w c world Hs) as (t & Ht & Hsh & Hit).
  exists t. repeat split; [done..| |]; rewrite Hit; by apply normalise_unit.
Qed.

Lemma preprocess_normalises_witness :
  ∃ t : ndarray f32,
    preprocess grey_image w_init = (Ok t, w_init)
    ∧ shape t = [1; 3; 300; 260]%nat
    ∧ in_unit_interval (item t [0; 2; 10; 20]%nat).
Proof.
  destruct (preprocess_normalises grey_image 300 260 3 w_init eq_refl)
    as (t & Hrun & Hshape & _ & Hunit).
  exists t. repeat split; [exact Hrun|exact Hshape|apply Hunit; simpl; lia..].
Defined.

(** X2.  Postprocessing applied to the preprocessed image gives the image
    back: the result has the shape of the image, and every pixel in
    0..255 is recovered exactly through the division by 255, the
    multiplication by 255, the clamp and the truncation in [float32]. *)
Theorem postprocess_preprocess (img : ndarray Z) (h w c : nat) (world : World) :
  shape img = [h; w; c] →
  ∃ (t : ndarray f32) (out : ndarray Z),
    preprocess img world = (Ok t, world)
    ∧ postprocess t world = (Ok out, world)
    ∧ shape out = shape img
    ∧ ∀ i j k : nat,
        0 ≤ item img [i; j; k] ≤ 255 → item out [i; j; k] = item img [i; j; k].
Proof.
  intros Hs.
  destruct (preprocess_items img h w c world Hs) as (t & Ht & Hsh & Hit).
  destruct (postprocess_items t c h w world Hsh) as (out & Ho & Hsho & Hio).
  exists t, out. repeat split; [done|done|by rewrite Hs|].
  intros i j k Hv. rewrite Hio, Hit. by apply quantise_normalise.
Qed.

Lemma postprocess_preprocess_witness :
  ∃ (t : ndarray f32) (out : ndarray Z),
    preprocess grey_image w_init = (Ok t, w_init)
    ∧ postprocess t w_init = (Ok out, w_init)
    ∧ shape out = [300; 260; 3]%nat
    ∧ item out [10; 20; 2]%nat = 128.
Proof.
  destruct (postprocess_preprocess grey_image 300 260 3 w_init eq_refl)
    as (t & out & Hpre & Hpost & Hshape & Hitem).
  exists t, out. repeat split; [exact Hpre|exact Hpost|exact Hshape|].
  rewrite Hitem; [reflexivity|simpl; lia].
Defined.

(** ** Shapes accepted by the stages *)

Lemma np_transpose_rank {A} (a t : ndarray A) (axes : list nat) (w w' : World) :
  np_transpose a axes w = (Ok t, w') → length (shape a) = length axes.
Proof.
  unfold np_transpose. destruct (bool_decide _) eqn:Hd; [|done].
  apply bool_decide_eq_true in Hd as [Hlen _]. done.
Qed.

Lemma length_3_inv {A} (l : list A) : length l = 3%nat → ∃ x y z, l = [x; y; z].
Proof.
  destruct l as [|x [|y [|z [|? ?]]]]; try done. intros _. by exists x, y, z.
Qed.

(** X3.  Preprocessing succeeds exactly on arrays with three axes, and
    postprocessing exactly on results of shape (1, C, H, W); on any other
    shape they raise, leaving the world as it was. *)
Theorem stage_shapes (world : World) :
  (∀ img : ndarray Z,
     (∃ t, preprocess img world = (Ok t, world))
     ↔ ∃ h w c, shape img = [h; w; c])
  ∧ (∀ result : ndarray f32,
       (∃ out, postprocess result world = (Ok out, world))
       ↔ ∃ C H W, shape result = [1; C; H; W]%nat)
  ∧ (∀ (img : ndarray Z) r w', preprocess img world = (r, w') → w' = world)
  ∧ (∀ (result : ndarray f32) r w', postprocess result world = (r, w') → w' = world).
Proof.
  split; [|split; [|split]].
  - intros img. split.
    + intros [t Ht]. unfold preprocess in Ht.
      apply bind_inv in Ht as (a & w1 & Htr & _).
      apply np_transpose_rank in Htr. simpl in Htr. by apply length_3_inv.
    + intros (h & w & c & Hs).
      destruct (preprocess_items img h w c world Hs) as (t & Ht & _). by exists t.
  - intros result. split.
    + intros [out Ho]. unfold postprocess in Ho.
      apply bind_inv in Ho as (a & w1 & Hsq & Ho).
      apply bind_inv in Ho as (b & w2 & Htr & _).
      apply np_transpose_rank in Htr.
      unfold np_squeeze0 in Hsq.
      destruct (shape result) as [|[|[|n]] sh] eqn:Hs; try done.
      injection Hsq as <- <-. simpl in Htr.
      apply length_3_inv in Htr as (C & H & W & ->). by exists C, H, W.
    + intros (C & H & W & Hs).
      destruct (postprocess_items result C H W world Hs) as (out & Ho & _). by exists out.
  - intros img r w'. apply preprocess_pure.
  - intros result r w'. apply postprocess_pure.
Qed.

(** ** Images lower or narrower than 64 pixels *)

Lemma resize_small_raises (img : ndarray Z) (h w : nat) (chans : list nat)
    (world : World) :
  shape img = h :: w :: chans →
  (0 < h < 64 ∨ 0 < w < 64)%nat →
  resize_to_multiple_of_64 img world = (Raise (Exception "cv2.error"), world).
Proof.
  intros Hs Hsmall. unfold resize_to_multiple_of_64. rewrite Hs.
  assert (Hz : ((h / 64) * 64 = 0 ∧ h ≠ 0 ∨ (w / 64) * 64 = 0 ∧ w ≠ 0)%nat).
  { destruct Hsmall as [Hh|Hw]; [left|right];
      (split; [rewrite Nat.div_small by lia; lia|lia]). }
  rewrite bool_decide_eq_true_2 by lia.
  unfold cv2_resize. rewrite Hs.
  rewrite bool_decide_eq_true_2 by lia. reflexivity.
Qed.

(** X4.  When the decoded input image has a height or a width between 1
    and 63, the resize to the lower multiple of 64 asks for an empty
    image and raises: the executor returns [False] having read the IR and
    the image and nothing more; nothing is compiled, inferred or
    written. *)
Theorem run_gpu_inference_small_image (E : Env)
    (ov_model_path input_image_path output_image_path : string)
    (w : World) (devices : list string) (model : ov_model)
    (img : ndarray Z) (h wd : nat) (chans : list nat) :
  let w_read := after (EReadModel ov_model_path) (tick (tick w)) in
  let w_img := after (EImread input_image_path) (tick (tick w_read)) in
  ov_Core E w = Ok tt →
  available_devices E (tick w) = Ok devices →
  "GPU" ∈ devices →
  core_read_model E w_read ov_model_path = Ok model →
  cv2_imread E w_img input_image_path = Some img →
  shape img = h :: wd :: chans →
  (0 < h < 64 ∨ 0 < wd < 64)%nat →
  ∃ w' : World,
    run_gpu_inference E ov_model_path input_image_path output_image_path w
    = (Ok false, w')
    ∧ trace w' = trace w ++ [EReadModel ov_model_path; EImread input_image_path]
    ∧ fs w' = fs w.
Proof.
  intros w_read w_img Hcore Hdev Hgpu Hread Himg Hs Hsmall.
  unfold run_gpu_inference, try_except.
  unfold bind at 1, ask at 1. rewrite Hcore.
  unfold bind at 1, time_time at 1. fold (tick w).
  unfold bind at 1, ask at 1. rewrite Hdev.
  rewrite bool_decide_eq_true_2 by done.
  unfold bind at 1, time_time at 1. fold (tick (tick w)).
  unfold bind at 1. rewrite emit_after. fold w_read.
  unfold bind at 1, ask at 1. rewrite Hread.
  unfold bind at 1, time_time at 1. fold (tick w_read).
  unfold bind at 1, time_time at 1. fold (tick (tick w_read)).
  unfold bind at 1, load_image. unfold bind at 1. rewrite emit_after. fold w_img.
  unfold bind at 1. rewrite Himg. unfold ret at 1.
  unfold bind at 1, time_time at 1. fold (tick w_img).
  unfold run_from_resize.
  unfold bind at 1, time_time at 1. fold (tick (tick w_img)).
  unfold bind at 1. rewrite (resize_small_raises img h wd chans _ Hs Hsmall).
  eexists. split; [reflexivity|]. split; [|reflexivity].
  simpl. by rewrite <- app_assoc.
Qed.

Lemma run_gpu_inference_small_image_witness :
  ∃ w' : World,
    run_gpu_inference E_low_image "ov_model/realesrgan_x4.xml" "input.jpg"
      "output.jpg" w_init = (Ok false, w')
    ∧ trace w' = [EReadModel "ov_model/realesrgan_x4.xml"; EImread "input.jpg"]
    ∧ fs w' = fs w_init.
Proof.
  apply (run_gpu_inference_small_image E_low_image _ _ _ w_init ["CPU"; "GPU"]
           sample_model low_image 40 200 [3%nat]);
    [reflexivity|reflexivity|apply list_elem_of_further, list_elem_of_here
    |reflexivity|reflexivity|reflexivity|left; lia].
Defined.

(** ** Shape negotiation *)

Lemma Dimension_of_nat (n : nat) : Dimension (Z.of_nat n) = Static (Z.of_nat n).
Proof.
  unfold Dimension. destruct (Z.of_nat n =? -1) eqn:Hn; [|done].
  apply Z.eqb_eq in Hn. lia.
Qed.

(** X5.  Shape negotiation on a model whose first input has the
    dimensions [ds], for an image of height [h] and width [wd].  When no
    dimension is dynamic the model is returned as it is and no reshape is
    requested, whatever the size of the image.  When some dimension is
    dynamic and there are fewer than four of them, the negotiation raises
    before any reshape.  When some dimension is dynamic and there are at
    least four, the model is reshaped to [ds] with axis 2 set to [h] and
    axis 3 set to [wd], both static, the other axes untouched. *)
Theorem negotiate_shape_cases (E : Env) (model : ov_model) (ds : list dim)
    (img : ndarray Z) (h wd : nat) (chans : list nat) (w : World) :
  input_shapes model !! 0%nat = Some (Dims ds) →
  shape img = h :: wd :: chans →
  let s := Dims (<[3%nat := Static (Z.of_nat wd)]> (<[2%nat := Static (Z.of_nat h)]> ds)) in
  (existsb dim_is_dynamic ds = false →
   negotiate_shape E model img w = (Ok model, w))
  ∧ (existsb dim_is_dynamic ds = true → (length ds ≤ 3)%nat →
     negotiate_shape E model img w = (Raise (Exception "IndexError"), w))
  ∧ (existsb dim_is_dynamic ds = true → (3 < length ds)%nat →
     model_reshape E (after (EReshape model s) w) model s = Ok tt →
     negotiate_shape E model img w
     = (Ok (mk_ov_model (graph_id model) (<[0%nat := s]> (input_shapes model))),
        after (EReshape model s) w)).
Proof.
  intros Hin Hs s.
  assert (Hstart : ∀ b, existsb dim_is_dynamic ds = b →
            negotiate_shape E model img w
            = (if b
               then
                 partial_shape <- shape_setitem (Dims ds) 2 (Z.of_nat h) ;;
                 partial_shape <- shape_setitem partial_shape 3 (Z.of_nat wd) ;;
                 reshape_model E model partial_shape
               else ret model) w).
  { intros b Hb. unfold negotiate_shape, input_partial_shape. rewrite Hin.
    unfold bind at 1, ret at 1. cbv beta.
    change (shape_is_dynamic (Dims ds)) with (existsb dim_is_dynamic ds).
    rewrite Hb, Hs. reflexivity. }
  split; [|split].
  - intros Hd. by rewrite (Hstart _ Hd).
  - intros Hd Hlen. rewrite (Hstart _ Hd). unfold bind at 1, shape_setitem at 1.
    destruct (bool_decide (2 < length ds)%nat) eqn:H2; [|reflexivity].
    apply bool_decide_eq_true in H2.
    unfold ret at 1, bind at 1, shape_setitem at 1. rewrite length_insert.
    rewrite bool_decide_eq_false_2 by lia. reflexivity.
  - intros Hd Hlen Hre. rewrite (Hstart _ Hd). unfold bind at 1, shape_setitem at 1.
    rewrite bool_decide_eq_true_2 by lia.
    unfold ret at 1, bind at 1, shape_setitem at 1. rewrite length_insert.
    rewrite bool_decide_eq_true_2 by lia.
    unfold ret at 1. rewrite !Dimension_of_nat. fold s.
    unfold reshape_model. unfold bind at 1. rewrite emit_after.
    unfold bind, ask. rewrite Hre. reflexivity.
Qed.

Lemma negotiate_shape_cases_witness :
  negotiate_shape E_ok sample_model grey_image w_init
  = (Ok (mk_ov_model 0 [Dims [Static 1; Static 3; Static 300; Static 260]]),
     after (EReshape sample_model
              (Dims [Static 1; Static 3; Static 300; Static 260])) w_init).
Proof.
  destruct (negotiate_shape_cases E_ok sample_model
              [Static 1; Static 3; Dynamic; Dynamic] grey_image 300 260 [3%nat] w_init)
    as (_ & _ & H); [reflexivity|reflexivity|].
  apply H; [reflexivity|simpl; lia|reflexivity].
Defined.

(** ** The IR path *)

Lemma has_char_app (c : ascii) (s t : string) :
  has_char c (s +:+ t) = has_char c s || has_char c t.
Proof.
  induction s as [|c' s IH]; [reflexivity|].
  simpl. destruct (Ascii.eqb c' c); [reflexivity|exact IH].
Qed.

Lemma string_app_nil_r (s : string) : s +:+ "" = s.
Proof.
  induction s as [|c s IH]; [reflexivity|].
  change (String c (s +:+ "") = String c s). f_equal. exact IH.
Qed.

Lemma basename_from_plain (s acc : string) :
  has_char "/" s = false → basename_from s acc = acc +:+ s.
Proof.
  revert acc. induction s as [|c s IH]; intros acc Hs.
  - simpl. by rewrite string_app_nil_r.
  - simpl in *. destruct (Ascii.eqb c "/"); [done|].
    rewrite (IH _ Hs), string_app_assoc. reflexivity.
Qed.

Lemma basename_from_dir (d b acc : string) :
  basename_from (d +:+ String "/" b) acc = basename_from b "".
Proof.
  revert acc. induction d as [|c d IH]; intros acc; [reflexivity|].
  simpl. destruct (Ascii.eqb c "/"); apply IH.
Qed.

Lemma prefix_dot_head (c : ascii) (s : string) :
  Ascii.eqb c "." = false → String.prefix ".onnx" (String c s) = false.
Proof.
  intros Hc.
  change (String.prefix ".onnx" (String c s))
    with (if ascii_dec "." c then String.prefix "onnx" s else false).
  destruct (ascii_dec "." c) as [<-|]; [|reflexivity].
  by rewrite Ascii.eqb_refl in Hc.
Qed.

Lemma replace_stem (s : string) :
  has_char "." s = false → replace_from ".onnx" "" 0 (s +:+ ".onnx") = s.
Proof.
  induction s as [|c s IH]; intros Hs; [reflexivity|].
  change (String c s +:+ ".onnx") with (String c (s +:+ ".onnx")).
  cbn [replace_from]. cbn [has_char] in Hs.
  destruct (Ascii.eqb c ".") eqn:Hc; [done|].
  rewrite (prefix_dot_head c _ Hc). f_equal. by apply IH.
Qed.

(** X6.  The IR path keeps the file-name stem of the graph path and
    nothing else: for a stem without separator and without dot,
    "stem.onnx" in any directory, or in none, is sent to
    "ov_model/stem.xml". *)
Theorem xml_path_of_stem (dir stem : string) :
  has_char "/" stem = false →
  has_char "." stem = false →
  xml_path_of (stem +:+ ".onnx") = "ov_model/" +:+ stem +:+ ".xml"
  ∧ xml_path_of (dir +:+ "/" +:+ stem +:+ ".onnx") = "ov_model/" +:+ stem +:+ ".xml".
Proof.
  intros Hsep Hdot.
  assert (Hbase : os_path_basename (stem +:+ ".onnx") = stem +:+ ".onnx").
  { unfold os_path_basename. rewrite basename_from_plain; [reflexivity|].
    rewrite has_char_app, Hsep. reflexivity. }
  assert (Hxml : os_path_join ov_dir
                   (str_replace (stem +:+ ".onnx") ".onnx" "" +:+ ".xml")
                 = "ov_model/" +:+ stem +:+ ".xml").
  { unfold str_replace. rewrite (replace_stem stem Hdot). reflexivity. }
  split.
  - unfold xml_path_of. rewrite Hbase. exact Hxml.
  - unfold xml_path_of.
    replace (os_path_basename (dir +:+ "/" +:+ stem +:+ ".onnx"))
      with (stem +:+ ".onnx"); [exact Hxml|].
    unfold os_path_basename.
    change ("/" +:+ stem +:+ ".onnx") with (String "/" (stem +:+ ".onnx")).
    rewrite basename_from_dir. exact (eq_sym Hbase).
Qed.

Lemma xml_path_of_stem_witness :
  xml_path_of "realesrgan_x4.onnx" = "ov_model/realesrgan_x4.xml"
  ∧ xml_path_of "exports/v2/realesrgan_x4.onnx" = "ov_model/realesrgan_x4.xml".
Proof.
  apply (xml_path_of_stem "exports/v2" "realesrgan_x4"); reflexivity.
Defined.

(** ** Footprints of the stages *)

Section Footprint.
Context (S : string → Prop) (P : event → Prop).

Lemma changes_refl (w : World) : changes S P w w.
Proof.
  repeat split; [done..|]. exists []. by rewrite app_nil_r.
Qed.

Lemma changes_trans (w1 w2 w3 : World) :
  changes S P w1 w2 → changes S P w2 w3 → changes S P w1 w3.
Proof.
  intros (Hf1 & Hk1 & e1 & Ht1 & Hp1) (Hf2 & Hk2 & e2 & Ht2 & Hp2).
  split; [|split].
  - intros p Hp. by rewrite Hf2, Hf1.
  - intros p Hp. by apply Hk2, Hk1.
  - exists (e1 ++ e2). rewrite Ht2, Ht1, <- app_assoc. split; [done|].
    by apply Forall_app.
Qed.

Lemma only_ret {A} (a : A) : only S P (ret a).
Proof. intros w r w' [= _ <-]. apply changes_refl. Qed.

Lemma only_raise {A} (e : exn) : only S P (@raise A e).
Proof. intros w r w' [= _ <-]. apply changes_refl. Qed.

Lemma only_ask {A} (oracle : World → result A) : only S P (ask oracle).
Proof. intros w r w' [= _ <-]. apply changes_refl. Qed.

Lemma only_pure {A} (c : M A) :
  (∀ w r w', c w = (r, w') → w' = w) → only S P c.
Proof. intros Hc w r w' Hrun. rewrite (Hc _ _ _ Hrun). apply changes_refl. Qed.

Lemma only_os_path_exists (path : string) : only S P (os_path_exists path).
Proof. intros w r w' [= _ <-]. apply changes_refl. Qed.

Lemma only_time_time (E : Env) : only S P (time_time E).
Proof.
  intros w r w' [= _ <-]. repeat split; [done..|].
  exists []. simpl. by rewrite app_nil_r.
Qed.

Lemma only_emit (e : event) : P e → only S P (emit e).
Proof.
  intros He w r w' [= _ <-]. repeat split; [done..|].
  exists [e]. split; [done|]. by apply Forall_singleton.
Qed.

Lemma only_write_file (path : string) (f : file) : S path → only S P (write_file path f).
Proof.
  intros Hp w r w' [= _ <-]. split; [|split].
  - intros p Hn. simpl. apply lookup_insert_ne. by intros ->.
  - intros p Hsome. simpl. destruct (decide (path = p)) as [->|Hne].
    + by rewrite lookup_insert_eq.
    + by rewrite lookup_insert_ne.
  - exists []. simpl. by rewrite app_nil_r.
Qed.

Lemma only_bind {A B} (c : M A) (k : A → M B) :
  only S P c → (∀ a, only S P (k a)) → only S P (bind c k).
Proof.
  intros Hc Hk w r w' Hrun. unfold bind in Hrun.
  destruct (c w) as [[a|e] w1] eqn:Hcw.
  - eapply changes_trans; [by eapply Hc|by eapply Hk].
  - injection Hrun as _ <-. by eapply Hc.
Qed.

Lemma only_try_except {A} (body : M A) (handler : exn → M A) :
  only S P body → (∀ e, only S P (handler e)) → only S P (try_except body handler).
Proof.
  intros Hb Hh w r w' Hrun. unfold try_except in Hrun.
  destruct (body w) as [[a|e] w1] eqn:Hbw.
  - injection Hrun as _ <-. by eapply Hb.
  - eapply changes_trans; [by eapply Hb|by eapply Hh].
Qed.

End Footprint.

Lemma only_weaken {A} (S S' : string → Prop) (P P' : event → Prop) (c : M A) :
  (∀ p, S p → S' p) → (∀ e, P e → P' e) → only S P c → only S' P' c.
Proof.
  intros HS HP Hc w r w' Hrun. destruct (Hc w r w' Hrun) as (Hf & Hk & evs & Ht & Hp).
  split; [|split; [done|]].
  - intros p Hn. apply Hf. intros Hs. by apply Hn, HS.
  - exists evs. split; [done|]. eapply Forall_impl; [exact Hp|exact HP].
Qed.

(** Decompose a footprint goal along the structure of the computation. *)
Ltac footprint :=
  repeat first
    [ apply only_ret
    | apply only_raise
    | apply only_ask
    | apply only_os_path_exists
    | apply only_time_time
    | apply only_bind; [|intros ?]
    | apply only_try_except; [|intros ?]
    | match goal with
      | |- only _ _ (if ?b then _ else _) => destruct b
      | |- only _ _ (match ?x with _ => _ end) => destruct x
      end ].

(** Choose the disjunct of an event predicate that the event satisfies. *)
Ltac pick_event :=
  hnf;
  repeat match goal with
         | |- _ ∨ _ => first [left; solve [repeat eexists]|right]
         end;
  solve [repeat eexists].

Lemma shape_getitem_pure (s : PartialShape) (i : nat) (w w1 : World) (r : result dim) :
  shape_getitem s i w = (r, w1) → w1 = w.
Proof.
  unfold shape_getitem. destruct s; [by intros [= _ <-]|].
  destruct (_ !! _); by intros [= _ <-].
Qed.

Lemma np_squeeze0_pure {A} (a : ndarray A) (w w1 : World) (r : result (ndarray A)) :
  np_squeeze0 a w = (r, w1) → w1 = w.
Proof.
  unfold np_squeeze0. destruct (shape a) as [|[|[|n]] sh]; by intros [= _ <-].
Qed.

(** Close the leaves of a footprint goal: recorded calls, file writes and
    the computations that leave the world alone. *)
Ltac footprint_close :=
  first
    [ apply only_emit; pick_event
    | apply only_write_file; solve [done | hnf; auto]
    | apply only_pure; intros ? ? ?;
      first [ apply shape_setitem_pure | apply shape_getitem_pure
            | apply input_partial_shape_pure | apply resize_to_multiple_of_64_pure
            | apply preprocess_pure | apply postprocess_pure
            | apply np_transpose_pure | apply np_squeeze0_pure ] ].

Lemma try_except_never_raises {A} (body : M A) (handler : exn → M A) :
  (∀ e, never_raises (handler e)) → never_raises (try_except body handler).
Proof.
  intros Hh w. unfold try_except.
  destruct (body w) as [[a|e] w1]; [by exists a, w1|apply Hh].
Qed.

Lemma try_except_none_inv {A} (body : M (option A)) (w w' : World) (a : A) :
  try_except body (fun e => ret None) w = (Ok (Some a), w') →
  body w = (Ok (Some a), w').
Proof.
  unfold try_except. by destruct (body w) as [[r|e] w1].
Qed.

Lemma ret_never_raises {A} (a : A) : never_raises (ret a).
Proof. intros w. by exists a, w. Qed.

Section StageFootprints.
Context (E : Env).

Lemma only_f_write (data : list byte) :
  only (eq MODEL_PATH) download_event (f_write E MODEL_PATH data).
Proof.
  unfold f_write. footprint.
  - apply only_emit. right. right. by exists data.
  - intros w r w' Hrun. exact (only_write_file _ _ _ _ eq_refl w r w' Hrun).
Qed.

Lemma only_write_chunks (chunks : list (list byte)) :
  only (eq MODEL_PATH) download_event (write_chunks E MODEL_PATH chunks).
Proof.
  induction chunks as [|data rest IH]; simpl; [apply only_ret|].
  apply only_bind; [apply only_f_write|intros _; exact IH].
Qed.

Lemma download_model_never_raises : never_raises (download_model E).
Proof.
  intros w. unfold download_model, bind, os_path_exists.
  destruct (bool_decide _); [by eexists _, _|].
  apply try_except_never_raises. intros e. apply ret_never_raises.
Qed.

Lemma only_download_model :
  only (eq MODEL_PATH) download_event (download_model E).
Proof.
  unfold download_model, raise_for_status, total_size_of. footprint.
  all: try footprint_close.
  apply only_write_chunks.
Qed.

(** X7.  [download_model] never raises.  It changes no file other than
    the one at [MODEL_PATH] and removes none; the only external calls it
    makes are the request to the fixed URL, the opening of [MODEL_PATH]
    for writing and writes to it. *)
Theorem download_model_footprint :
  never_raises (download_model E)
  ∧ only (eq MODEL_PATH) download_event (download_model E).
Proof. split; [apply download_model_never_raises|apply only_download_model]. Qed.

Lemma export_never_raises : never_raises (export_realesrgan_to_onnx E).
Proof. apply try_except_never_raises. intros e. apply ret_never_raises. Qed.

Lemma only_export :
  only (eq onnx_file) export_event (export_realesrgan_to_onnx E).
Proof. unfold export_realesrgan_to_onnx. footprint. all: footprint_close. Qed.

Lemma export_some (w w' : World) (p : string) :
  export_realesrgan_to_onnx E w = (Ok (Some p), w') →
  p = onnx_file ∧ is_Some (fs w' !! onnx_file).
Proof.
  intros Hrun. unfold export_realesrgan_to_onnx in Hrun.
  apply try_except_none_inv in Hrun.
  repeat (apply bind_inv in Hrun as (? & ? & ? & Hrun)).
  match goal with
  | H : os_path_exists _ _ = _ |- _ => injection H as <- <-
  end.
  match type of Hrun with
  | context [bool_decide ?Q] => destruct (bool_decide Q) eqn:Hex
  end; [|done].
  injection Hrun as <- <-. split; [reflexivity|].
  by apply bool_decide_eq_true in Hex.
Qed.

(** X8.  [export_realesrgan_to_onnx] never raises.  It changes no file
    other than "realesrgan_x4.onnx" and removes none; its external calls
    are the loading of the weights at [MODEL_PATH], the binding of a
    parameter set and the export to "realesrgan_x4.onnx".  When it returns
    a path, the path is "realesrgan_x4.onnx" and a file exists there. *)
Theorem export_footprint :
  never_raises (export_realesrgan_to_onnx E)
  ∧ only (eq onnx_file) export_event (export_realesrgan_to_onnx E)
  ∧ ∀ w p w',
      export_realesrgan_to_onnx E w = (Ok (Some p), w') →
      p = onnx_file ∧ is_Some (fs w' !! onnx_file).
Proof.
  split; [apply export_never_raises|]. split; [apply only_export|].
  intros w p w'. apply export_some.
Qed.

Lemma exists_check_inv (path : string) (w w' : World) (p : string) :
  (present <- os_path_exists path ;;
   if (present : bool) then ret (Some path) else ret None) w = (Ok (Some p), w') →
  p = path ∧ is_Some (fs w' !! path).
Proof.
  unfold bind, os_path_exists.
  destruct (bool_decide (is_Some (fs w !! path))) eqn:Hex; [|done].
  intros [= <- <-]. split; [done|]. by apply bool_decide_eq_true in Hex.
Qed.

Lemma convert_step_by_step_never_raises (onnx_path xml_path : string) :
  never_raises (convert_step_by_step E onnx_path xml_path).
Proof. apply try_except_never_raises. intros e. apply ret_never_raises. Qed.

Lemma convert_step_by_step_some (onnx_path xml_path p : string) (w w' : World) :
  convert_step_by_step E onnx_path xml_path w = (Ok (Some p), w') →
  p = xml_path ∧ is_Some (fs w' !! xml_path).
Proof.
  intros Hrun. unfold convert_step_by_step in Hrun.
  apply try_except_none_inv in Hrun.
  do 8 (apply bind_inv in Hrun as (? & ? & _ & Hrun)).
  by apply exists_check_inv in Hrun.
Qed.

Lemma convert_direct_some (onnx_path xml_path p : string) (w w' : World) :
  convert_direct E onnx_path xml_path w = (Ok (Some p), w') →
  p = xml_path ∧ is_Some (fs w' !! xml_path).
Proof.
  intros Hrun. unfold convert_direct in Hrun.
  do 3 (apply bind_inv in Hrun as (? & ? & _ & Hrun)).
  by apply exists_check_inv in Hrun.
Qed.

Lemma only_convert (onnx_path : string) :
  only (ir_files onnx_path) (convert_event onnx_path)
    (convert_to_openvino E onnx_path).
Proof. unfold convert_to_openvino. footprint. all: footprint_close. Qed.

Lemma convert_raise_iff (onnx_path : string) (w w' : World) (e : exn) :
  convert_to_openvino E onnx_path w = (Raise e, w')
  ↔ os_makedirs E (after (EMakedirs ov_dir) w) ov_dir = Raise e
    ∧ w' = after (EMakedirs ov_dir) w.
Proof.
  unfold convert_to_openvino. unfold bind at 1. rewrite emit_after.
  unfold bind at 1, ask at 1.
  destruct (os_makedirs E _ ov_dir) as [[]|e0].
  - unfold try_except.
    destruct (convert_direct E _ _ _) as [[r|e1] w1].
    + split; [done|]. by intros [? _].
    + destruct (convert_step_by_step_never_raises onnx_path
                  (xml_path_of onnx_path) w1) as (a & w2 & ->).
      split; [done|]. by intros [? _].
  - split; [by intros [= -> ->]|by intros [[= ->] ->]].
Qed.

Lemma convert_some (onnx_path : string) (w w' : World) (p : string) :
  convert_to_openvino E onnx_path w = (Ok (Some p), w') →
  p = xml_path_of onnx_path ∧ is_Some (fs w' !! p).
Proof.
  intros Hrun. unfold convert_to_openvino in Hrun.
  do 2 (apply bind_inv in Hrun as (? & ? & _ & Hrun)).
  unfold try_except in Hrun.
  destruct (convert_direct E _ _ _) as [[r|e1] w1] eqn:Hd.
  - injection Hrun as -> ->.
    apply convert_direct_some in Hd as [-> Hfile]. done.
  - apply convert_step_by_step_some in Hrun as [-> Hfile]. done.
Qed.

(** X9.  [convert_to_openvino] changes no file other than the two files
    of the IR derived from the graph path, the ".xml" topology and the
    ".bin" weights that [ov.save_model] puts beside it, and removes none;
    its external calls are the creation of "ov_model", the conversion or
    the re-reading of the graph, reshapes, and saves to that IR path.  It
    raises exactly when the creation of the directory raises, with that
    exception and before any conversion.  When it returns a path, the path
    is that of the topology file and a file exists there. *)
Theorem convert_footprint (onnx_path : string) :
  only (ir_files onnx_path) (convert_event onnx_path)
    (convert_to_openvino E onnx_path)
  ∧ (∀ w e w',
       convert_to_openvino E onnx_path w = (Raise e, w')
       ↔ os_makedirs E (after (EMakedirs ov_dir) w) ov_dir = Raise e
         ∧ w' = after (EMakedirs ov_dir) w)
  ∧ (∀ w p w',
       convert_to_openvino E onnx_path w = (Ok (Some p), w') →
       p = xml_path_of onnx_path ∧ is_Some (fs w' !! p)).
Proof.
  split; [apply only_convert|]. split.
  - intros w e w'. apply convert_raise_iff.
  - intros w p w'. apply convert_some.
Qed.

Lemma run_gpu_inference_never_raises
    (ov_model_path input_image_path output_image_path : string) :
  never_raises
    (run_gpu_inference E ov_model_path input_image_path output_image_path).
Proof. apply try_except_never_raises. intros e. apply ret_never_raises. Qed.

Lemma only_run_gpu_inference
    (ov_model_path input_image_path output_image_path : string) :
  only (eq output_image_path)
    (inference_event ov_model_path input_image_path output_image_path)
    (run_gpu_inference E ov_model_path input_image_path output_image_path).
Proof.
  unfold run_gpu_inference. footprint.
  all: try footprint_close.
  all: intros w r w' [= _ <-]; apply changes_refl.
Qed.

(** X10.  [run_gpu_inference] never raises.  It changes no file other
    than the output image and removes none.  Its external calls are the
    reading of the IR, the decoding of the input image, reshapes,
    compilations for the device "GPU" and no other, inferences, the
    writing of the output image and the two final prints; in particular
    it sends no request and touches neither the weights nor the IR. *)
Theorem run_gpu_inference_footprint
    (ov_model_path input_image_path output_image_path : string) :
  never_raises
    (run_gpu_inference E ov_model_path input_image_path output_image_path)
  ∧ only (eq output_image_path)
      (inference_event ov_model_path input_image_path output_image_path)
      (run_gpu_inference E ov_model_path input_image_path output_image_path).
Proof.
  split; [apply run_gpu_inference_never_raises|apply only_run_gpu_inference].
Qed.

End StageFootprints.

(** ** More on [download_model] *)

Section DownloadMore.
Context (E : Env).

Lemma write_chunks_all (path : string) (chunks : list (list byte)) :
  (∀ w data, file_write E w path data = Ok tt) →
  ∀ (c : list byte) (w : World),
    fs w !! path = Some (FileBytes c) →
    ∃ w',
      write_chunks E path chunks w = (Ok tt, w')
      ∧ fs w' !! path = Some (FileBytes (c ++ concat chunks))
      ∧ transfers (trace w') = transfers (trace w).
Proof.
  intros Hwrite. induction chunks as [|data rest IH]; intros c w Hc.
  - exists w. simpl. by rewrite app_nil_r.
  - destruct (f_write_spec E path data c w Hc)
      as (r & w1 & Hw & Ht & [[-> Hf]|[[e ->] _]]).
    + destruct (IH (c ++ data) w1 Hf) as (w2 & Hr & Hf2 & Ht2).
      exists w2. simpl. unfold bind at 1. rewrite Hw, Hr.
      repeat split; [|congruence]. by rewrite Hf2, <- app_assoc.
    + exfalso. unfold f_write, bind, emit, ask in Hw. rewrite Hwrite in Hw.
      discriminate Hw.
Qed.

(** X11.  When the destination file has been opened, the body stream
    ends without fault and every write succeeds, [download_model] returns
    [True] after one request and the file at [MODEL_PATH] holds the
    streamed chunks, concatenated in order. *)
Theorem download_model_complete (w : World) (resp : response) :
  opened_for_writing E w resp →
  stream_fault resp = false →
  (∀ w' data, file_write E w' MODEL_PATH data = Ok tt) →
  ∃ w1 : World,
    download_model E w = (Ok true, w1)
    ∧ fs w1 !! MODEL_PATH = Some (FileBytes (concat (body resp)))
    ∧ transfers (trace w1) = S (transfers (trace w)).
Proof.
  intros (Habs & Hget & Hst & Hlen & Hopen) Hfault Hwrite.
  unfold download_model. unfold bind at 1.
  rewrite (os_path_exists_false _ _ Habs).
  unfold try_except. unfold bind at 1. rewrite emit_after.
  unfold bind at 1, ask at 1. rewrite Hget.
  unfold bind at 1, raise_for_status. rewrite Hst. unfold ret at 1.
  unfold bind at 1.
  assert (∃ n, total_size_of resp (after (EHttpGet model_url) w)
               = (Ok n, after (EHttpGet model_url) w)) as [n ->].
  { unfold total_size_of. destruct (content_length resp); [by eexists..|done]. }
  unfold bind at 1. rewrite emit_after.
  unfold bind at 1, ask at 1. rewrite Hopen.
  unfold bind at 1, write_file at 1. unfold bind at 1.
  match goal with
  | |- context [write_chunks E MODEL_PATH (body resp) ?w0] =>
    destruct (write_chunks_all MODEL_PATH (body resp) Hwrite [] w0)
      as (w1 & Hw & Hf & Ht)
  end.
  { simpl. by rewrite lookup_insert_eq. }
  rewrite Hw. unfold bind. rewrite Hfault. simpl in Hf, Ht.
  exists w1. repeat split; [done|].
  rewrite Ht, !transfers_app. simpl. lia.
Qed.

(** A call that finds no file sends exactly one request. *)
Lemma download_model_absent (w w1 : World) (r : result bool) :
  fs w !! MODEL_PATH = None →
  download_model E w = (r, w1) →
  transfers (trace w1) = S (transfers (trace w)).
Proof.
  intros Hf Hrun. pose proof Hrun as Hrun'.
  unfold download_model in Hrun. unfold bind at 1 in Hrun.
  rewrite (os_path_exists_false _ _ Hf) in Hrun.
  unfold try_except in Hrun. unfold bind at 1 in Hrun. rewrite emit_after in Hrun.
  unfold bind at 1, ask at 1 in Hrun.
  destruct (requests_get E _ model_url) as [resp|e] eqn:Hget.
  2:{ injection Hrun as <- <-. simpl. rewrite transfers_app. simpl. lia. }
  unfold bind at 1, raise_for_status in Hrun.
  destruct (status_ok resp) eqn:Hst.
  2:{ injection Hrun as <- <-. simpl. rewrite transfers_app. simpl. lia. }
  unfold ret at 1, bind at 1, total_size_of in Hrun.
  destruct (content_length resp) eqn:Hlen.
  3:{ injection Hrun as <- <-. simpl. rewrite transfers_app. simpl. lia. }
  all: unfold ret at 1, bind at 1 in Hrun; rewrite emit_after in Hrun.
  all: unfold bind at 1, ask at 1 in Hrun.
  all: destruct (open_wb E _ MODEL_PATH) as [[]|e] eqn:Hopen.
  all: try (injection Hrun as <- <-; simpl; rewrite !transfers_app; simpl; lia).
  all: destruct (download_model_opened E w resp) as (r' & w1' & k & Hd & _ & Ht & _);
    [repeat split; [done..|by rewrite Hlen|done]|].
  all: rewrite Hd in Hrun'; by injection Hrun' as <- <-.
Qed.

(** X12.  When no file is at [MODEL_PATH] and the request raises, or is
    answered with an error status or with a content length that cannot be
    converted, [download_model] returns [False] having recorded the
    request and nothing else: the destination is not opened and the file
    system is as it was.  A second call then sends a second request. *)
Theorem download_model_request_fails (w : World) :
  fs w !! MODEL_PATH = None →
  request_fails E w →
  download_model E w = (Ok false, after (EHttpGet model_url) w)
  ∧ ∀ r w2, download_model E (after (EHttpGet model_url) w) = (r, w2) →
            transfers (trace w2) = S (S (transfers (trace w))).
Proof.
  intros Habs Hfail. split.
  - unfold request_fails in Hfail.
    unfold download_model. unfold bind at 1.
    rewrite (os_path_exists_false _ _ Habs).
    unfold try_except. unfold bind at 1. rewrite emit_after.
    unfold bind at 1, ask at 1.
    destruct (requests_get E _ model_url) as [resp|e]; [|reflexivity].
    unfold bind at 1, raise_for_status.
    destruct (status_ok resp); [|reflexivity].
    destruct Hfail as [?|Hlen]; [done|].
    unfold ret at 1, bind at 1, total_size_of. rewrite Hlen. reflexivity.
  - intros r w2 Hrun.
    rewrite (download_model_absent (after (EHttpGet model_url) w) _ _ Habs Hrun).
    simpl. rewrite transfers_app. simpl. lia.
Qed.

End DownloadMore.

Lemma download_model_complete_witness :
  ∃ w1 : World,
    download_model E_ok w_init = (Ok true, w1)
    ∧ fs w1 !! MODEL_PATH = Some (FileBytes [x01; x02; x03])
    ∧ transfers (trace w1) = 1%nat.
Proof.
  apply (download_model_complete E_ok w_init response_ok).
  - repeat split; try reflexivity. discriminate.
  - reflexivity.
  - reflexivity.
Defined.

Lemma download_model_request_fails_witness :
  download_model E_404 w_init = (Ok false, after (EHttpGet model_url) w_init)
  ∧ ∀ r w2, download_model E_404 (after (EHttpGet model_url) w_init) = (r, w2) →
            transfers (trace w2) = 2%nat.
Proof.
  apply (download_model_request_fails E_404 w_init).
  - reflexivity.
  - left. reflexivity.
Defined.

(** ** The data flow of a successful inference *)

Section Dataflow.
Context (E : Env).

Lemma negotiate_shape_events (m m' : ov_model) (img : ndarray Z) (w w1 : World) :
  negotiate_shape E m img w = (Ok m', w1) →
  (m' = m ∧ w1 = w)
  ∨ ∃ s, m' = mk_ov_model (graph_id m) (<[0%nat := s]> (input_shapes m))
         ∧ w1 = after (EReshape m s) w.
Proof.
  unfold negotiate_shape. intros H.
  apply bind_inv in H as (s & w2 & Hs & H). apply input_partial_shape_pure in Hs as ->.
  destruct (shape_is_dynamic s).
  - apply bind_inv in H as (s2 & w2 & Hs & H). apply shape_setitem_pure in Hs as ->.
    apply bind_inv in H as (s3 & w2 & Hs & H). apply shape_setitem_pure in Hs as ->.
    unfold reshape_model in H.
    apply bind_inv in H as (u & w2 & He & H). apply emit_inv in He as ->.
    apply bind_inv in H as (u2 & w3 & Ha & H). apply ask_inv in Ha as [_ ->].
    injection H as <- <-. right. by exists s3.
  - injection H as <- <-. by left.
Qed.

(** What a successful run of the stages after ingest has done, in
    order. *)
Lemma run_from_resize_dataflow (model : ov_model) (output_image_path : string)
    (total_start image_load_time : Q) (img_in : ndarray Z) (w w' : World) :
  run_from_resize E model output_image_path total_start image_load_time img_in w
  = (Ok true, w') →
  ∃ (img : ndarray Z) (t : ndarray f32) (model' : ov_model) (result : ndarray f32)
    (out : ndarray Z) (evs : list event) (record : list (string * Q))
    (fps : option Q) (written : bool),
    (∃ w1, resize_to_multiple_of_64 img_in w1 = (Ok img, w1))
    ∧ (∃ w2, preprocess img w2 = (Ok t, w2))
    ∧ (∃ w3, get_output_tensor E w3 model' = Ok result)
    ∧ (∃ w4, postprocess result w4 = (Ok out, w4))
    ∧ (∃ w5, cv2_imwrite E w5 output_image_path out = Ok written)
    ∧ (evs = [] ∧ model' = model
       ∨ ∃ s, evs = [EReshape model s]
              ∧ model' = mk_ov_model (graph_id model) (<[0%nat := s]> (input_shapes model)))
    ∧ trace w'
      = trace w ++ evs ++ [ECompileModel model' "GPU"; EInfer t;
                           EImwrite output_image_path out;
                           EPrintTiming record; EPrintFPS fps]
    ∧ fs w' = if written then <[output_image_path := FileImage out]> (fs w) else fs w.
Proof.
  intros H. unfold run_from_resize in H. cbv zeta in H.
  apply bind_inv in H as (t0 & w0 & Hs & H). injection Hs as <- <-.
  apply bind_inv in H as (img & w1 & Hres & H).
  pose proof (resize_to_multiple_of_64_pure _ _ _ _ Hres) as ->.
  apply bind_inv in H as (t1 & w1 & Hs & H). injection Hs as <- <-.
  apply bind_inv in H as (t2 & w1 & Hs & H). injection Hs as <- <-.
  apply bind_inv in H as (t & w1 & Hpre & H).
  pose proof (preprocess_pure _ _ _ _ Hpre) as ->.
  apply bind_inv in H as (t3 & w1 & Hs & H). injection Hs as <- <-.
  apply bind_inv in H as (s0 & w1 & Hs & H). apply input_partial_shape_pure in Hs as ->.
  apply bind_inv in H as (name & w1 & Hs & H). apply ask_inv in Hs as [_ ->].
  apply bind_inv in H as (t4 & w1 & Hs & H). injection Hs as <- <-.
  apply bind_inv in H as (model' & wn & Hneg & H).
  apply bind_inv in H as (t5 & w1 & Hs & H). injection Hs as <- <-.
  apply bind_inv in H as (t6 & w1 & Hs & H). injection Hs as <- <-.
  apply bind_inv in H as (t7 & w1 & Hs & H). injection Hs as <- <-.
  apply bind_inv in H as (t8 & w1 & Hs & H). injection Hs as <- <-.
  apply bind_inv in H as (u1 & w1 & Hs & H). apply emit_inv in Hs as ->.
  apply bind_inv in H as (u2 & w1 & Hs & H). apply ask_inv in Hs as [_ ->].
  apply bind_inv in H as (t9 & w1 & Hs & H). injection Hs as <- <-.
  apply bind_inv in H as (t10 & w1 & Hs & H). injection Hs as <- <-.
  apply bind_inv in H as (u3 & w1 & Hs & H). apply emit_inv in Hs as ->.
  apply bind_inv in H as (u4 & w1 & Hs & H). apply ask_inv in Hs as [_ ->].
  apply bind_inv in H as (t11 & w1 & Hs & H). injection Hs as <- <-.
  apply bind_inv in H as (t12 & w1 & Hs & H). injection Hs as <- <-.
  apply bind_inv in H as (result & w1 & Hout & H). apply ask_inv in Hout as [Hout ->].
  apply bind_inv in H as (t13 & w1 & Hs & H). injection Hs as <- <-.
  apply bind_inv in H as (t14 & w1 & Hs & H). injection Hs as <- <-.
  apply bind_inv in H as (out & w1 & Hpost & H).
  pose proof (postprocess_pure _ _ _ _ Hpost) as ->.
  apply bind_inv in H as (t15 & w1 & Hs & H). injection Hs as <- <-.
  apply bind_inv in H as (t16 & w1 & Hs & H). injection Hs as <- <-.
  apply bind_inv in H as (u5 & w1 & Hs & H). apply emit_inv in Hs as ->.
  apply bind_inv in H as (written & w1 & Hwr & H). apply ask_inv in Hwr as [Hwr ->].
  apply bind_inv in H as (u6 & wf & Hf & H).
  apply bind_inv in H as (t17 & w1 & Hs & H). injection Hs as <- <-.
  apply bind_inv in H as (t18 & w1 & Hs & H). injection Hs as <- <-.
  apply bind_inv in H as (u7 & w1 & Hs & H). apply emit_inv in Hs as ->.
  apply bind_inv in H as (u8 & w1 & Hs & H). apply emit_inv in Hs as ->.
  injection H as <-.
  apply negotiate_shape_events in Hneg as [[-> ->]|(s & -> & ->)].
  - exists img, t, model, result, out, []. eexists _, _, written.
    split; [by eexists|]. split; [by eexists|]. split; [by eexists|].
    split; [by eexists|]. split; [by eexists|]. split; [by left|].
    destruct written; injection Hf as _ <-; simpl;
      (split; [by rewrite <- !app_assoc|reflexivity]).
  - eexists img, t, _, result, out, [EReshape model s], _, _, written.
    split; [by eexists|]. split; [by eexists|]. split; [by eexists|].
    split; [by eexists|]. split; [by eexists|]. split; [right; by exists s|].
    destruct written; injection Hf as _ <-; simpl;
      (split; [by rewrite <- !app_assoc|reflexivity]).
Qed.

(** A successful run has read the IR and the image, in this order, and
    then run the stages after ingest. *)
Lemma run_gpu_inference_ingest
    (ov_model_path input_image_path output_image_path : string) (w w' : World) :
  run_gpu_inference E ov_model_path input_image_path output_image_path w
  = (Ok true, w') →
  ∃ (model : ov_model) (img_in : ndarray Z) (t0 dt : Q) (wk : World),
    (∃ w0, core_read_model E w0 ov_model_path = Ok model)
    ∧ (∃ w0, cv2_imread E w0 input_image_path = Some img_in
             ∨ cv2_imread E w0 input_image_path = None ∧ img_in = default_image E)
    ∧ trace wk = trace w ++ [EReadModel ov_model_path; EImread input_image_path]
    ∧ fs wk = fs w
    ∧ run_from_resize E model output_image_path t0 dt img_in wk = (Ok true, w').
Proof.
  intros H. apply try_except_false_inv in H.
  apply bind_inv in H as (u & w1 & Hs & H). apply ask_inv in Hs as [_ ->].
  apply bind_inv in H as (t0 & w1 & Hs & H). injection Hs as <- <-.
  apply bind_inv in H as (devices & w1 & Hs & H). apply ask_inv in Hs as [_ ->].
  destruct (bool_decide ("GPU" ∈ devices)); [|discriminate H].
  apply bind_inv in H as (t1 & w1 & Hs & H). injection Hs as <- <-.
  apply bind_inv in H as (u1 & w1 & Hs & H). apply emit_inv in Hs as ->.
  apply bind_inv in H as (model & w1 & Hread & H). apply ask_inv in Hread as [Hread ->].
  apply bind_inv in H as (t2 & w1 & Hs & H). injection Hs as <- <-.
  apply bind_inv in H as (t3 & w1 & Hs & H). injection Hs as <- <-.
  apply bind_inv in H as (img_in & w1 & Hload & H).
  apply bind_inv in H as (t4 & w2 & Hs & H). injection Hs as <- <-.
  unfold load_image in Hload.
  apply bind_inv in Hload as (u2 & w2 & Hs & Hload). apply emit_inv in Hs as ->.
  apply bind_inv in Hload as (o & w2 & Hs & Hload). injection Hs as Ho <-.
  destruct o as [i|]; injection Hload as <- <-.
  - exists model, i. eexists _, _, _.
    split; [by eexists|]. split; [|split; [|split; [|exact H]]].
    + eexists. by left.
    + simpl. by rewrite <- app_assoc.
    + reflexivity.
  - exists model, (default_image E). eexists _, _, _.
    split; [by eexists|]. split; [|split; [|split; [|exact H]]].
    + eexists. by right.
    + simpl. by rewrite <- app_assoc.
    + reflexivity.
Qed.

(** X13.  A successful run of [run_gpu_inference] has done the
    following, in this order and nothing else: read the IR; decoded the
    input image, or taken the placeholder; resized it to multiples of 64;
    reshaped the model at most once; compiled for "GPU"; inferred on the
    preprocessed resized image; and handed the postprocessed output tensor
    to [cv2.imwrite], before the two final prints.  The output file holds
    that image when [cv2.imwrite] reported success, and the file system is
    untouched otherwise. *)
Theorem run_gpu_inference_dataflow
    (ov_model_path input_image_path output_image_path : string) (w w' : World) :
  run_gpu_inference E ov_model_path input_image_path output_image_path w
  = (Ok true, w') →
  ∃ (model : ov_model) (img_in img : ndarray Z) (t : ndarray f32)
    (model' : ov_model) (result : ndarray f32) (out : ndarray Z)
    (evs : list event) (record : list (string * Q)) (fps : option Q)
    (written : bool),
    (∃ w0, core_read_model E w0 ov_model_path = Ok model)
    ∧ (∃ w0, cv2_imread E w0 input_image_path = Some img_in
             ∨ cv2_imread E w0 input_image_path = None ∧ img_in = default_image E)
    ∧ (∃ w1, resize_to_multiple_of_64 img_in w1 = (Ok img, w1))
    ∧ (∃ w2, preprocess img w2 = (Ok t, w2))
    ∧ (∃ w3, get_output_tensor E w3 model' = Ok result)
    ∧ (∃ w4, postprocess result w4 = (Ok out, w4))
    ∧ (∃ w5, cv2_imwrite E w5 output_image_path out = Ok written)
    ∧ (evs = [] ∧ model' = model
       ∨ ∃ s, evs = [EReshape model s]
              ∧ model' = mk_ov_model (graph_id model) (<[0%nat := s]> (input_shapes model)))
    ∧ trace w'
      = trace w ++ [EReadModel ov_model_path; EImread input_image_path] ++ evs
        ++ [ECompileModel model' "GPU"; EInfer t; EImwrite output_image_path out;
            EPrintTiming record; EPrintFPS fps]
    ∧ fs w' = if written then <[output_image_path := FileImage out]> (fs w) else fs w.
Proof.
  intros H.
  apply run_gpu_inference_ingest in H
    as (model & img_in & t0 & dt & wk & Hread & Himg & Htk & Hfk & H).
  apply run_from_resize_dataflow in H
    as (img & t & model' & result & out & evs & record & fps & written
        & Hres & Hpre & Hout & Hpost & Hwr & Hevs & Ht & Hf).
  exists model, img_in, img, t, model', result, out, evs, record, fps, written.
  repeat (split; [done|]). split.
  - rewrite Ht, Htk, <- !app_assoc. reflexivity.
  - by rewrite Hf, Hfk.
Qed.

(** X14.  The answer of [cv2.imwrite] is not looked at: when it reports
    failure for every file, a run can still return [True], and then it has
    handed an image to [cv2.imwrite] and the file system is as it was
    before the run. *)
Theorem run_gpu_inference_ignores_imwrite
    (ov_model_path input_image_path output_image_path : string) (w w' : World) :
  imwrite_fails E →
  run_gpu_inference E ov_model_path input_image_path output_image_path w
  = (Ok true, w') →
  fs w' = fs w
  ∧ ∃ out, EImwrite output_image_path out ∈ drop (length (trace w)) (trace w').
Proof.
  intros Hfail H.
  apply run_gpu_inference_ingest in H
    as (model & img_in & t0 & dt & wk & _ & _ & Htk & Hfk & H).
  apply run_from_resize_dataflow in H
    as (img & t & model' & result & out & evs & record & fps & written
        & _ & _ & _ & _ & [w5 Hwr] & _ & Ht & Hf).
  rewrite Hfail in Hwr. injection Hwr as <-. split; [by rewrite Hf|].
  exists out. rewrite Ht, Htk, <- !app_assoc, drop_app_length.
  set_solver.
Qed.

End Dataflow.

Lemma run_gpu_inference_dataflow_witness :
  ∃ (w' : World) (t : ndarray f32) (out : ndarray Z)
    (record : list (string * Q)) (fps : option Q),
    run_gpu_inference E_ok "ov_model/realesrgan_x4.xml" "input.jpg" "output.jpg" w_init
    = (Ok true, w')
    ∧ (∃ s, trace w'
            = [EReadModel "ov_model/realesrgan_x4.xml"; EImread "input.jpg";
               EReshape sample_model s;
               ECompileModel (mk_ov_model 0 [s]) "GPU"; EInfer t;
               EImwrite "output.jpg" out; EPrintTiming record; EPrintFPS fps])
    ∧ fs w' = {[ "output.jpg" := FileImage out ]}.
Proof.
  assert (H1 : (run_gpu_inference E_ok "ov_model/realesrgan_x4.xml" "input.jpg"
                  "output.jpg" w_init).1 = Ok true) by (vm_compute; reflexivity).
  destruct (run_gpu_inference E_ok "ov_model/realesrgan_x4.xml" "input.jpg"
              "output.jpg" w_init) as [r w'] eqn:Hrun.
  simpl in H1. subst r.
  destruct (run_gpu_inference_dataflow E_ok _ _ _ _ _ Hrun)
    as (model & img_in & img & t & model' & result & out & evs & record & fps
        & written & [w0 Hread] & _ & _ & _ & _ & _ & [w5 Hwr] & Hevs & Ht & Hf).
  injection Hread as <-. injection Hwr as <-.
  exists w', t, out, record, fps. split; [reflexivity|].
  destruct Hevs as [[-> ->]|(s & -> & ->)].
  - exfalso. simpl in Ht.
    assert (Hlen : length (trace w') = 8%nat).
    { change (trace w') with (trace (Ok true, w').2). rewrite <- Hrun.
      vm_compute. reflexivity. }
    rewrite Ht in Hlen. discriminate Hlen.
  - split; [by exists s|]. rewrite Hf. reflexivity.
Defined.

Lemma run_gpu_inference_ignores_imwrite_witness :
  ∃ w' : World,
    run_gpu_inference E_imwrite_fails "ov_model/realesrgan_x4.xml" "input.jpg"
      "output.jpg" w_init = (Ok true, w')
    ∧ fs w' = fs w_init.
Proof.
  assert (H1 : (run_gpu_inference E_imwrite_fails "ov_model/realesrgan_x4.xml"
                  "input.jpg" "output.jpg" w_init).1 = Ok true)
    by (vm_compute; reflexivity).
  destruct (run_gpu_inference E_imwrite_fails "ov_model/realesrgan_x4.xml" "input.jpg"
              "output.jpg" w_init) as [r w'] eqn:Hrun.
  simpl in H1. subst r. exists w'. split; [reflexivity|].
  apply (run_gpu_inference_ignores_imwrite E_imwrite_fails _ _ _ _ _
           ltac:(intros ? ? ?; reflexivity) Hrun).
Defined.

(** ** [main] *)

Lemma only_bind_post {A B} (S : string → Prop) (P : event → Prop)
    (c : M A) (k : A → M B) (Q : A → Prop) :
  only S P c →
  (∀ w a w', c w = (Ok a, w') → Q a) →
  (∀ a, Q a → only S P (k a)) →
  only S P (bind c k).
Proof.
  intros Hc HQ Hk w r w' Hrun. unfold bind in Hrun.
  destruct (c w) as [[a|e] w1] eqn:Hcw.
  - eapply changes_trans; [by eapply Hc|].
    eapply Hk; [by eapply HQ|exact Hrun].
  - injection Hrun as _ <-. by eapply Hc.
Qed.

Lemma only_try_except_ImportError {A} (S : string → Prop) (P : event → Prop)
    (body handler : M A) :
  only S P body → only S P handler →
  only S P (try_except_ImportError body handler).
Proof.
  intros Hb Hh w r w' Hrun. unfold try_except_ImportError in Hrun.
  destruct (body w) as [[a|e] w1] eqn:Hbw.
  - injection Hrun as _ <-. by eapply Hb.
  - destruct (is_ImportError e).
    + eapply changes_trans; [by eapply Hb|by eapply Hh].
    + injection Hrun as _ <-. by eapply Hb.
Qed.

Lemma cv2_cvtColor_pure (img : ndarray Z) (w w1 : World) (r : result (ndarray Z)) :
  cv2_cvtColor_BGR2RGB img w = (r, w1) → w1 = w.
Proof.
  unfold cv2_cvtColor_BGR2RGB.
  destruct (shape img) as [|h [|w0 [|c [|? ?]]]]; try by intros [= _ <-].
  - do 5 (destruct c as [|c]; try by intros [= _ <-]).
  - do 5 (destruct c as [|c]; try by intros [= _ <-]).
Qed.

Lemma transfers_none (evs : list event) :
  Forall (fun e => ∀ url, e ≠ EHttpGet url) evs → transfers evs = 0%nat.
Proof.
  induction 1 as [|e evs He _ IH]; [reflexivity|].
  destruct e; simpl; try exact IH. by destruct (He url).
Qed.

(** Destructure an event predicate down to its equations. *)
Ltac split_event H :=
  hnf in H;
  repeat match type of H with
         | _ ∨ _ => destruct H as [H|H]; hnf in H
         | ∃ _, _ => destruct H as [? H]
         end.

Lemma pipeline_event_no_request (e : event) :
  pipeline_event e → ∀ url, e ≠ EHttpGet url.
Proof. intros H url ->. split_event H; discriminate H. Qed.

Lemma download_event_no_compile (e : event) :
  download_event e → ∀ m d, e ≠ ECompileModel m d.
Proof. intros H m d ->. split_event H; discriminate H. Qed.

Lemma export_event_no_compile (e : event) :
  export_event e → ∀ m d, e ≠ ECompileModel m d.
Proof. intros H m d ->. split_event H; discriminate H. Qed.

Lemma convert_event_no_compile (onnx_path : string) (e : event) :
  convert_event onnx_path e → ∀ m d, e ≠ ECompileModel m d.
Proof. intros H m d ->. split_event H; discriminate H. Qed.

Section Main.
Context (E : Env) (P : PlotEnv).

Lemma only_load_for_display (S : string → Prop) (Q : event → Prop) (path : string) :
  Q (EImread path) → only S Q (load_for_display E path).
Proof.
  intros HQ. unfold load_for_display. footprint.
  - by apply only_emit.
  - apply only_pure. intros ? ? ?. apply cv2_cvtColor_pure.
Qed.

Lemma only_show_results :
  only main_file pipeline_event (show_results E P "input.jpg" "output.jpg").
Proof.
  unfold show_results. apply only_try_except_ImportError; [|apply only_ret].
  unfold show_results_body.
  apply only_bind; [apply only_ask|intros _].
  apply only_bind; [apply only_ask|intros _].
  apply only_bind; [apply only_load_for_display|intros orig_img].
  { do 2 right. left. right. by left. }
  apply only_bind; [apply only_ask|intros _].
  apply only_bind; [apply only_load_for_display|intros result_img].
  { by do 3 right. }
  apply only_ask.
Qed.

Lemma only_main_infer :
  only main_file pipeline_event (main_infer E P ir_file).
Proof.
  unfold main_infer.
  apply only_bind; [apply only_time_time|intros t0].
  apply only_bind; [|intros success].
  { eapply only_weaken; [| |apply only_run_gpu_inference].
    - intros p <-. by do 4 right.
    - intros e He. do 2 right. by left. }
  apply only_bind; [apply only_time_time|intros t1].
  apply only_bind; [apply only_time_time|intros t2].
  destruct success; [apply only_show_results|apply only_ret].
Qed.

Lemma only_main_after_download :
  only main_file pipeline_event (main_after_download E P).
Proof.
  unfold main_after_download.
  apply (only_bind_post _ _ _ _ (fun r => r = None ∨ r = Some onnx_file)).
  { eapply only_weaken; [| |apply only_export].
    - intros p <-. right. by left.
    - intros e He. by left. }
  { intros w [p|] w' Hrun; [right|by left].
    by destruct (export_some E _ _ _ Hrun) as [-> _]. }
  intros r [->| ->]; [apply only_ret|].
  apply only_bind; [apply only_os_path_exists|intros present].
  destruct (negb present); [apply only_ret|].
  apply (only_bind_post _ _ _ _ (fun r => r = None ∨ r = Some ir_file)).
  { eapply only_weaken; [| |apply only_convert].
    - intros p [-> | ->]; [do 2 right; by left|do 3 right; by left].
    - intros e He. right. by left. }
  { intros w [p|] w' Hrun; [right|by left].
    by destruct (convert_some E _ _ _ _ Hrun) as [-> _]. }
  intros r2 [->| ->]; [apply only_ret|].
  apply only_bind; [apply only_os_path_exists|intros present2].
  destruct (negb present2); [apply only_ret|apply only_main_infer].
Qed.

Lemma only_main : only main_file main_event (main E P).
Proof.
  unfold main.
  apply only_bind; [apply only_time_time|intros t0].
  apply only_bind; [|intros downloaded].
  { eapply only_weaken; [| |apply only_download_model].
    - intros p <-. by left.
    - intros e He. by left. }
  destruct (negb downloaded); [apply only_ret|].
  eapply only_weaken; [| |apply only_main_after_download]; [done|].
  intros e He. by right.
Qed.

(** X15.  [main] changes no file other than the weights, the graph
    "realesrgan_x4.onnx", the two files of the IR, which are
    "ov_model/realesrgan_x4.xml" and the ".bin" weights beside it, and
    "output.jpg", and removes none.  Its external calls are those of the
    four stages, with inference reading that IR and "input.jpg" and
    writing "output.jpg", and the re-reading of the two images for
    display.  It sends at most one request. *)
Theorem main_footprint :
  only main_file main_event (main E P)
  ∧ ∀ w r w', main E P w = (r, w') →
      (transfers (trace w') ≤ S (transfers (trace w)))%nat.
Proof.
  split; [apply only_main|].
  intros w r w' Hrun. unfold main in Hrun.
  unfold bind at 1, time_time at 1 in Hrun.
  unfold bind at 1 in Hrun.
  destruct (download_model E _) as [[b|e] w1] eqn:Hd.
  - destruct (download_model_outcome E _ _ _ Hd) as [Ht _]. simpl in Ht.
    destruct (negb b).
    + by injection Hrun as _ <-.
    + destruct (only_main_after_download _ _ _ Hrun) as (_ & _ & evs & Hevs & Hall).
      rewrite Hevs, transfers_app, (transfers_none evs); [lia|].
      eapply Forall_impl; [exact Hall|]. apply pipeline_event_no_request.
  - injection Hrun as _ <-.
    destruct (download_model_outcome E _ _ _ Hd) as [Ht _]. exact Ht.
Qed.

Lemma changes_weaken (S S' : string → Prop) (Q Q' : event → Prop) (w w' : World) :
  (∀ p, S p → S' p) → (∀ e, Q e → Q' e) → changes S Q w w' → changes S' Q' w w'.
Proof.
  intros HS HQ (Hf & Hk & evs & Ht & Hp).
  split; [|split; [done|]].
  - intros p Hn. apply Hf. intros Hs. by apply Hn, HS.
  - exists evs. split; [done|]. eapply Forall_impl; [exact Hp|exact HQ].
Qed.

Lemma preparation_not_compiled (S : string → Prop) (w w' : World) :
  changes S preparation_event w w' → ¬ compiled (events_since w w').
Proof.
  intros (_ & _ & evs & Ht & Hall) (m & d & Hin).
  unfold events_since in Hin. rewrite Ht, drop_app_length in Hin.
  rewrite Forall_forall in Hall. specialize (Hall _ Hin).
  destruct Hall as [H|[H|H]].
  - by eapply download_event_no_compile.
  - by eapply export_event_no_compile.
  - by eapply convert_event_no_compile.
Qed.

Lemma changes_kept (S : string → Prop) (Q : event → Prop) (w w' : World) (p : string) :
  changes S Q w w' → is_Some (fs w !! p) → is_Some (fs w' !! p).
Proof. intros (_ & Hk & _). apply Hk. Qed.

(** X16.  Whenever a run of [main] has compiled the model, the three
    stages before inference had each returned its file: the download
    returned [True], the exporter the graph path and the compiler the IR
    path.  In the world the compiler left, from which inference starts,
    nothing had been compiled yet and the weights, the graph and the IR
    were all on disk; the compilation is recorded after that world; and
    the three files are still there when [main] ends. *)
Theorem main_gates_inference (w w' : World) (r : result unit) :
  main E P w = (r, w') →
  compiled (events_since w w') →
  ∃ w1 w2 w3 : World,
    download_model E (tick w) = (Ok true, w1)
    ∧ export_realesrgan_to_onnx E w1 = (Ok (Some onnx_file), w2)
    ∧ convert_to_openvino E onnx_file w2 = (Ok (Some ir_file), w3)
    ∧ main_infer E P ir_file w3 = (r, w')
    ∧ ¬ compiled (events_since w w3)
    ∧ compiled (events_since w3 w')
    ∧ (is_Some (fs w3 !! MODEL_PATH)
       ∧ is_Some (fs w3 !! onnx_file)
       ∧ is_Some (fs w3 !! ir_file))
    ∧ (is_Some (fs w' !! MODEL_PATH)
       ∧ is_Some (fs w' !! onnx_file)
       ∧ is_Some (fs w' !! ir_file)).
Proof.
  intros Hrun Hc. unfold main in Hrun.
  unfold bind at 1, time_time at 1 in Hrun. unfold bind at 1 in Hrun.
  fold (tick w) in Hrun.
  set (w0 := tick w) in *.
  assert (Hsince : ∀ wk, events_since w wk = events_since w0 wk) by done.
  rewrite Hsince in Hc.
  destruct (download_model_never_raises E w0) as (b & w1 & Hd). rewrite Hd in Hrun.
  assert (Hch1 : changes main_file preparation_event w0 w1).
  { eapply changes_weaken; [| |exact (only_download_model E _ _ _ Hd)].
    - intros p <-. by left.
    - intros e He. by left. }
  destruct b; cbn [negb] in Hrun.
  2:{ injection Hrun as _ <-. by destruct (preparation_not_compiled _ _ _ Hch1). }
  destruct (download_model_outcome E _ _ _ Hd) as [_ Hfile1].
  specialize (Hfile1 eq_refl).
  unfold main_after_download in Hrun. unfold bind at 1 in Hrun.
  destruct (export_never_raises E w1) as (o & w2 & He). rewrite He in Hrun.
  assert (Hch2 : changes main_file preparation_event w0 w2).
  { eapply changes_trans; [exact Hch1|].
    eapply changes_weaken; [| |exact (only_export E _ _ _ He)].
    - intros p <-. right. by left.
    - intros e He'. right. by left. }
  destruct o as [p|].
  2:{ injection Hrun as _ <-. by destruct (preparation_not_compiled _ _ _ Hch2). }
  destruct (export_some E _ _ _ He) as [-> Hfile2].
  unfold bind at 1, os_path_exists at 1 in Hrun.
  rewrite bool_decide_eq_true_2 in Hrun by done. cbn [negb] in Hrun.
  unfold bind at 1 in Hrun.
  destruct (convert_to_openvino E onnx_file w2) as [o2 w3] eqn:Hcv.
  assert (Hch3 : changes main_file preparation_event w0 w3).
  { eapply changes_trans; [exact Hch2|].
    eapply changes_weaken; [| |exact (only_convert E _ _ _ _ Hcv)].
    - intros p [-> | ->]; [do 2 right; by left|do 3 right; by left].
    - intros e He'. by do 2 right. }
  destruct o2 as [[q|]|e].
  2:{ injection Hrun as _ <-. by destruct (preparation_not_compiled _ _ _ Hch3). }
  2:{ injection Hrun as _ <-. by destruct (preparation_not_compiled _ _ _ Hch3). }
  destruct (convert_some E _ _ _ _ Hcv) as [-> Hfile3].
  unfold bind at 1, os_path_exists at 1 in Hrun.
  rewrite bool_decide_eq_true_2 in Hrun by done. cbn [negb] in Hrun.
  pose proof (only_main_infer _ _ _ Hrun) as Hch4.
  pose proof (only_export E _ _ _ He) as Hk2.
  pose proof (only_convert E _ _ _ _ Hcv) as Hk3.
  pose proof (preparation_not_compiled _ _ _ Hch3) as Hnot.
  assert (Hat3 : is_Some (fs w3 !! MODEL_PATH) ∧ is_Some (fs w3 !! onnx_file)
                 ∧ is_Some (fs w3 !! ir_file)).
  { repeat split.
    - apply (changes_kept _ _ _ _ _ Hk3), (changes_kept _ _ _ _ _ Hk2), Hfile1.
    - apply (changes_kept _ _ _ _ _ Hk3), Hfile2.
    - exact Hfile3. }
  exists w1, w2, w3.
  split; [exact Hd|]. split; [exact He|]. split; [exact Hcv|].
  split; [exact Hrun|]. split; [by rewrite Hsince|].
  split.
  - destruct Hch3 as (_ & _ & evs3 & Ht3 & _).
    destruct Hch4 as (_ & _ & evs4 & Ht4 & _).
    destruct Hc as (m & d & Hin). exists m, d.
    unfold events_since in Hin |- *.
    rewrite Ht4, drop_app_length.
    rewrite Ht4, Ht3, <- app_assoc, drop_app_length in Hin.
    apply elem_of_app in Hin as [Hin|Hin]; [|exact Hin].
    destruct Hnot. exists m, d. unfold events_since.
    by rewrite Ht3, drop_app_length.
  - split; [exact Hat3|]. destruct Hat3 as (H1 & H2 & H3).
    repeat split; by apply (changes_kept _ _ _ _ _ Hch4).
Qed.

(** X17.  [main] stops at the first stage that fails, from the world that
    stage left: after a failed download nothing else runs; after an export
    that returns no path there is no conversion; after a conversion that
    returns no path there is no inference; and after a failed inference
    the clock is read twice and nothing is displayed. *)
Theorem main_stops_at_first_failure (w : World) :
  (∀ w1,
     download_model E (tick w) = (Ok false, w1) →
     main E P w = (Ok tt, w1))
  ∧ (∀ w1 w2,
       download_model E (tick w) = (Ok true, w1) →
       export_realesrgan_to_onnx E w1 = (Ok None, w2) →
       main E P w = (Ok tt, w2))
  ∧ (∀ w1 w2 p w3,
       download_model E (tick w) = (Ok true, w1) →
       export_realesrgan_to_onnx E w1 = (Ok (Some p), w2) →
       convert_to_openvino E p w2 = (Ok None, w3) →
       main E P w = (Ok tt, w3))
  ∧ (∀ w1 w2 p w3 q w4,
       download_model E (tick w) = (Ok true, w1) →
       export_realesrgan_to_onnx E w1 = (Ok (Some p), w2) →
       convert_to_openvino E p w2 = (Ok (Some q), w3) →
       run_gpu_inference E q "input.jpg" "output.jpg" (tick w3) = (Ok false, w4) →
       main E P w = (Ok tt, tick (tick w4))).
Proof.
  assert (Hstart : ∀ b w1,
            download_model E (tick w) = (Ok b, w1) →
            main E P w = (if negb b then ret tt else main_after_download E P) w1).
  { intros b w1 Hd. unfold main. unfold bind at 1, time_time at 1.
    fold (tick w). unfold bind at 1. by rewrite Hd. }
  assert (Hexport : ∀ w1 p w2,
            export_realesrgan_to_onnx E w1 = (Ok (Some p), w2) →
            main_after_download E P w1
            = (ov_path <- convert_to_openvino E p ;;
               match ov_path with
               | None => ret tt
               | Some ov_path =>
                 present <- os_path_exists ov_path ;;
                 if negb present then ret tt else main_infer E P ov_path
               end) w2).
  { intros w1 p w2 He. unfold main_after_download. unfold bind at 1. rewrite He.
    destruct (export_some E _ _ _ He) as [-> Hfile].
    unfold bind at 1, os_path_exists at 1.
    by rewrite bool_decide_eq_true_2. }
  split; [|split; [|split]].
  - intros w1 Hd. by rewrite (Hstart _ _ Hd).
  - intros w1 w2 Hd He. rewrite (Hstart _ _ Hd). cbn [negb].
    unfold main_after_download, bind. by rewrite He.
  - intros w1 w2 p w3 Hd He Hcv. rewrite (Hstart _ _ Hd). cbn [negb].
    rewrite (Hexport _ _ _ He). unfold bind at 1. by rewrite Hcv.
  - intros w1 w2 p w3 q w4 Hd He Hcv Hrun. rewrite (Hstart _ _ Hd). cbn [negb].
    rewrite (Hexport _ _ _ He). unfold bind at 1. rewrite Hcv.
    destruct (convert_some E _ _ _ _ Hcv) as [-> Hfile].
    unfold bind at 1, os_path_exists at 1.
    rewrite bool_decide_eq_true_2 by done. cbn [negb].
    unfold main_infer. unfold bind at 1, time_time at 1. fold (tick w3).
    unfold bind at 1. rewrite Hrun. reflexivity.
Qed.

(** X18.  [main] lets two kinds of exception escape and no other: the
    one raised by the creation of the "ov_model" directory, and one raised
    by the display that is not an [ImportError].  When the import of
    pyplot raises an [ImportError], the display is skipped without
    error. *)
Theorem main_raises (w w' : World) (e : exn) :
  (main E P w = (Raise e, w') →
   (∃ w0, os_makedirs E w0 ov_dir = Raise e)
   ∨ (is_ImportError e = false
      ∧ ∃ w0, show_results_body E P "input.jpg" "output.jpg" w0 = (Raise e, w')))
  ∧ (import_pyplot P w = Raise e → is_ImportError e = true →
     show_results E P "input.jpg" "output.jpg" w = (Ok tt, w)).
Proof.
  split.
  - intros Hrun. unfold main in Hrun.
    unfold bind at 1, time_time at 1 in Hrun. unfold bind at 1 in Hrun.
    destruct (download_model_never_raises E (mk_World (fs w) (trace w) (S (ticks w))))
      as (b & w1 & Hd).
    rewrite Hd in Hrun. destruct b; cbn [negb] in Hrun; [|discriminate Hrun].
    unfold main_after_download in Hrun. unfold bind at 1 in Hrun.
    destruct (export_never_raises E w1) as (o & w2 & He). rewrite He in Hrun.
    destruct o as [p|]; [|discriminate Hrun].
    unfold bind at 1, os_path_exists at 1 in Hrun.
    destruct (negb _); [discriminate Hrun|].
    unfold bind at 1 in Hrun.
    destruct (convert_to_openvino E p w2) as [[[q|]|e0] w3] eqn:Hcv;
      [|discriminate Hrun|].
    2:{ injection Hrun as -> ->. left.
        apply convert_raise_iff in Hcv as [Hmk _]. by eexists. }
    unfold bind at 1, os_path_exists at 1 in Hrun.
    destruct (negb _); [discriminate Hrun|].
    unfold main_infer in Hrun.
    unfold bind at 1, time_time at 1 in Hrun. unfold bind at 1 in Hrun.
    match type of Hrun with
    | context [run_gpu_inference E q ?i ?o ?wk] =>
      destruct (run_gpu_inference_never_raises E q i o wk) as (ok & w4 & Hinf)
    end.
    rewrite Hinf in Hrun.
    unfold bind at 1, time_time at 1 in Hrun.
    unfold bind at 1, time_time at 1 in Hrun.
    destruct ok; [|discriminate Hrun].
    unfold show_results, try_except_ImportError in Hrun.
    match type of Hrun with
    | context [show_results_body E P ?i ?o ?wk] =>
      destruct (show_results_body E P i o wk) as [[u|e1] w5] eqn:Hshow
    end; [discriminate Hrun|].
    destruct (is_ImportError e1) eqn:Himp; [discriminate Hrun|].
    injection Hrun as -> ->. right. split; [done|]. by eexists.
  - intros Himp Hkind. unfold show_results, try_except_ImportError.
    unfold show_results_body. unfold bind at 1, ask at 1. rewrite Himp, Hkind.
    reflexivity.
Qed.

End Main.

Lemma compiled_of_bool (evs : list event) :
  existsb is_compile_event evs = true → compiled evs.
Proof.
  intros H. apply existsb_exists in H as (e & Hin & He).
  destruct e; try discriminate He. exists m, device. by apply list_elem_of_In.
Qed.

Lemma main_gates_inference_witness :
  ∃ w3 w' : World,
    main E_ok matplotlib_ok w_init = (Ok tt, w')
    ∧ main_infer E_ok matplotlib_ok ir_file w3 = (Ok tt, w')
    ∧ ¬ compiled (events_since w_init w3)
    ∧ is_Some (fs w3 !! MODEL_PATH)
    ∧ is_Some (fs w3 !! onnx_file)
    ∧ is_Some (fs w3 !! ir_file).
Proof.
  assert (H1 : (main E_ok matplotlib_ok w_init).1 = Ok tt) by (vm_compute; reflexivity).
  assert (H2 : existsb is_compile_event
                 (events_since w_init (main E_ok matplotlib_ok w_init).2) = true)
    by (vm_compute; reflexivity).
  destruct (main E_ok matplotlib_ok w_init) as [r w'] eqn:Hrun.
  simpl in H1, H2. subst r.
  destruct (main_gates_inference E_ok matplotlib_ok _ _ _ Hrun (compiled_of_bool _ H2))
    as (w1 & w2 & w3 & _ & _ & _ & Hinf & Hnot & _ & (Ha & Hb & Hc) & _).
  exists w3, w'. repeat split; assumption.
Defined.

Lemma main_raises_witness :
  (∃ w' : World,
     main E_makedirs_fails matplotlib_ok w_init
     = (Raise (Exception "PermissionError"), w')
     ∧ ((∃ w0, os_makedirs E_makedirs_fails w0 ov_dir
               = Raise (Exception "PermissionError"))
        ∨ (is_ImportError (Exception "PermissionError") = false
           ∧ ∃ w0, show_results_body E_makedirs_fails matplotlib_ok
                     "input.jpg" "output.jpg" w0
                   = (Raise (Exception "PermissionError"), w'))))
  ∧ show_results E_ok no_matplotlib "input.jpg" "output.jpg" w_init = (Ok tt, w_init).
Proof.
  split.
  - assert (H1 : (main E_makedirs_fails matplotlib_ok w_init).1
                 = Raise (Exception "PermissionError")) by (vm_compute; reflexivity).
    destruct (main E_makedirs_fails matplotlib_ok w_init) as [r w'] eqn:Hrun.
    simpl in H1. subst r. exists w'. split; [reflexivity|].
    exact (proj1 (main_raises E_makedirs_fails matplotlib_ok w_init w'
                    (Exception "PermissionError")) Hrun).
  - apply (proj2 (main_raises E_ok no_matplotlib w_init w_init
                    (Exception "ModuleNotFoundError"))); reflexivity.
Defined.

Lemma main_stops_at_first_failure_witness :
  ∃ w1 : World,
    download_model E_404 (tick w_init) = (Ok false, w1)
    ∧ main E_404 matplotlib_ok w_init = (Ok tt, w1).
Proof.
  assert (H1 : (download_model E_404 (tick w_init)).1 = Ok false)
    by (vm_compute; reflexivity).
  destruct (download_model E_404 (tick w_init)) as [r w1] eqn:Hrun.
  simpl in H1. subst r. exists w1. split; [reflexivity|].
  exact (proj1 (main_stops_at_first_failure E_404 matplotlib_ok w_init) w1 Hrun).
Defined.
